(** * Priority admission plugin (plugin/pkg/admission/priority/admission.go)

    A shallow embedding of the Go plugin and the properties its
    specification states about it.

    Conventions of the embedding:
    - [int32] values ([PriorityClass.Value], [Pod.Spec.Priority]) are [Z];
      the plugin only compares and copies them, it never does arithmetic on
      them, so no wrap-around occurs on these paths.  The one conversion of
      the source, [int32(scheduling.DefaultPriorityWhenNoDefaultClassExists)],
      is written out with [int32].
    - A Go pointer that may be nil ([*int32], [*PriorityClass]) is an
      [option].
    - The object under admission is mutated in place by the Go code.  The
      embedding passes that state explicitly: every function that may mutate
      the object returns the object as it is after the call together with the
      returned [error] ([None] is Go's [nil]).
    - The process-wide [utilfeature.DefaultFeatureGate] is passed explicitly
      to the two entry points [Admit] and [Validate].
    - Packages imported by the plugin whose sources are not part of this
      development (constants of [pkg/apis/scheduling], [metav1],
      [kubelet/types], the group names behind [api.Resource] and
      [scheduling.Resource]) are collected in the record [Imports] and are a
      parameter of the whole development. *)

From Stdlib Require Import ZArith List String Bool Lia DecimalString.
From Stdlib Require Import Permutation.
Import ListNotations.
Open Scope string_scope.
Open Scope Z_scope.

(** ** Errors (k8s.io/apimachinery/pkg/api/errors and fmt.Errorf)

    The error helpers the plugin calls live in packages whose sources are not
    part of this development.  They are modelled after the three error kinds
    of the specification: a BadRequest status is its malformed-input error, a
    Forbidden status its policy-violation error, and a plain [fmt.Errorf]
    error its transient error. *)

Inductive StatusReason : Type :=
| StatusReasonBadRequest
| StatusReasonForbidden
| StatusReasonNotFound
| StatusReasonOther (reason : string).

(** Modelled from the spec: a Go [error] value is either an API
    [StatusError] carrying its reason, or a plain error made by [fmt.Errorf],
    which carries only text (formatting an error with [%v] keeps its text and
    drops its status). *)
Inductive error : Type :=
| StatusError (reason : StatusReason) (message : string)
| errorString (message : string).

Definition Error (e : error) : string :=
  match e with
  | StatusError _ m => m
  | errorString m => m
  end.

(** Modelled from the spec: [errors.IsNotFound] recognises the not-found
    answer of a lookup in the index. *)
Definition IsNotFound (e : error) : bool :=
  match e with
  | StatusError StatusReasonNotFound _ => true
  | _ => false
  end.

Definition IsForbidden (e : error) : bool :=
  match e with
  | StatusError StatusReasonForbidden _ => true
  | _ => false
  end.

Definition IsBadRequest (e : error) : bool :=
  match e with
  | StatusError StatusReasonBadRequest _ => true
  | _ => false
  end.

(** Modelled from the spec: [errors.NewBadRequest] makes the malformed-input
    error. *)
Definition NewBadRequest (reason : string) : error :=
  StatusError StatusReasonBadRequest reason.

(** The three error kinds of the specification. *)
Inductive ErrorKind : Type := MalformedInput | PolicyViolation | Transient.

(** Every error the plugin itself constructs is a BadRequest status, a
    Forbidden status or a plain [fmt.Errorf] error; a plain error is how index
    failures are surfaced. *)
Definition kindOf (e : error) : option ErrorKind :=
  match e with
  | StatusError StatusReasonBadRequest _ => Some MalformedInput
  | StatusError StatusReasonForbidden _ => Some PolicyViolation
  | StatusError _ _ => None
  | errorString _ => Some Transient
  end.

(** [%d] of an integer. *)
Definition fmt_d (z : Z) : string := NilZero.string_of_int (Z.to_int z).

(** Go's conversion to a signed 32-bit integer. *)
Definition int32 (z : Z) : Z := (z + 2 ^ 31) mod 2 ^ 32 - 2 ^ 31.

(** ** Objects *)

(** The fields of a priority class the plugin reads.  The lister hands out
    [schedulingv1.PriorityClass] and the validated object is a
    [scheduling.PriorityClass]; the two agree on these fields and share this
    record. *)
Record PriorityClass : Type := mkPriorityClass {
  Name : string;
  Value : Z;
  GlobalDefault : bool
}.

(** [map[string]string] of the object's metadata. *)
Definition AnnotationMap : Type := list (string * string).

Record PodSpec : Type := mkPodSpec {
  PriorityClassName : string;
  Priority : option Z;
  NodeName : string
}.

Record Pod : Type := mkPod {
  podName : string;
  podNamespace : string;
  Annotations : AnnotationMap;
  Spec : PodSpec
}.

(** [pod.Spec.PriorityClassName = s] *)
Definition setPriorityClassName (pod : Pod) (s : string) : Pod :=
  mkPod (podName pod) (podNamespace pod) (Annotations pod)
        (mkPodSpec s (Priority (Spec pod)) (NodeName (Spec pod))).

(** [pod.Spec.Priority = v] *)
Definition setPriority (pod : Pod) (v : option Z) : Pod :=
  mkPod (podName pod) (podNamespace pod) (Annotations pod)
        (mkPodSpec (PriorityClassName (Spec pod)) v (NodeName (Spec pod))).

(** A [runtime.Object] as the plugin's type assertions see it. *)
Inductive Object : Type :=
| PodObject (pod : Pod)
| PriorityClassObject (pc : PriorityClass)
| OtherObject (kind : string)
| NilObject.

(** ** Admission attributes *)

Inductive Operation : Type := Create | Update | Delete | Connect.

Record GroupResource : Type := mkGroupResource {
  Group : string;
  Resource : string
}.

Definition GroupResource_eqb (x y : GroupResource) : bool :=
  (Group x =? Group y)%string && (Resource x =? Resource y)%string.

Record Attributes : Type := mkAttributes {
  GetOperation : Operation;
  GetResource : GroupResource;
  GetSubresource : string;
  GetObject : Object;
  GetOldObject : Object;
  GetNamespace : string;
  GetName : string
}.

(** Modelled from the spec: [admission.NewForbidden(a, internalError)] makes
    the policy-violation error, a Forbidden status that names the resource
    and the object of the request and ends with the text of the internal
    error. *)
Definition NewForbidden (a : Attributes) (internalError : error) : error :=
  StatusError StatusReasonForbidden
    (Resource (GetResource a) ++ " " ++ GetName a ++ " is forbidden: "
       ++ Error internalError).

(** ** The priority-class lister and the plugin *)

Inductive result (A : Type) : Type :=
| Ok (a : A)
| Err (e : error).
Arguments Ok {A} a.
Arguments Err {A} e.

(** Modelled from the spec: [schedulingv1listers.PriorityClassLister], the
    read-only facade of the index.  [Get] answers with a class or an error,
    not-found among them; [List] (called with [labels.Everything()]) answers
    with a snapshot of all visible classes or an error. *)
Record PriorityClassLister : Type := mkLister {
  Get : string -> result PriorityClass;
  List : result (list PriorityClass)
}.

Record priorityPlugin : Type := mkPlugin {
  lister : PriorityClassLister
}.

(** ** Feature gates *)

Inductive Feature : Type := PodPriority | ExperimentalCriticalPodAnnotation.

Definition FeatureGate : Type := Feature -> bool.

Definition Enabled (fg : FeatureGate) (f : Feature) : bool := fg f.

(** ** Imported constants and helpers *)

Record Imports : Type := mkImports {
  (* scheduling.SystemPriorityClasses() *)
  SystemPriorityClasses : list PriorityClass;
  (* metav1.NamespaceSystem *)
  NamespaceSystem : string;
  (* scheduling.SystemClusterCritical *)
  SystemClusterCritical : string;
  (* scheduling.DefaultPriorityWhenNoDefaultClassExists *)
  DefaultPriorityWhenNoDefaultClassExists : Z;
  (* kubelettypes.IsCritical *)
  IsCritical : string -> AnnotationMap -> bool;
  (* the group of api.Resource and of scheduling.Resource *)
  api_GroupName : string;
  scheduling_GroupName : string
}.

Section Plugin.

Variable K : Imports.

Definition podResource : GroupResource :=
  mkGroupResource (api_GroupName K) "pods".

Definition priorityClassResource : GroupResource :=
  mkGroupResource (scheduling_GroupName K) "priorityclasses".

(** *** priorityClassPermittedInNamespace *)

(** The [for _, spc := range ...] loop with its early [return false]. *)
Fixpoint permittedLoop (spcs : list PriorityClass)
         (priorityClassName namespace : string) : bool :=
  match spcs with
  | [] => true
  | spc :: rest =>
      if (Name spc =? priorityClassName)%string
         && negb (namespace =? NamespaceSystem K)%string
      then false
      else permittedLoop rest priorityClassName namespace
  end.

Definition priorityClassPermittedInNamespace
           (priorityClassName namespace : string) : bool :=
  permittedLoop (SystemPriorityClasses K) priorityClassName namespace.

(** *** getDefaultPriorityClass and getDefaultPriority *)

(** One iteration of the loop over the listed classes; [defaultPC] is the
    loop's variable of that name. *)
Definition defaultStep (defaultPC : option PriorityClass)
           (pci : PriorityClass) : option PriorityClass :=
  if GlobalDefault pci then
    match defaultPC with
    | None => Some pci
    | Some d => if Value d >? Value pci then Some pci else defaultPC
    end
  else defaultPC.

Definition getDefaultPriorityClass (p : priorityPlugin)
  : result (option PriorityClass) :=
  match List (lister p) with
  | Err err => Err err
  | Ok list => Ok (fold_left defaultStep list None)
  end.

Definition getDefaultPriority (p : priorityPlugin) : result (string * Z) :=
  match getDefaultPriorityClass p with
  | Err err => Err err
  | Ok (Some dpc) => Ok (Name dpc, Value dpc)
  | Ok None => Ok ("", int32 (DefaultPriorityWhenNoDefaultClassExists K))
  end.

(** *** admitPod *)

Definition msgNotPod : string :=
  "resource was marked with kind Pod but was unable to be converted".

(** The Create branch of [admitPod] up to, and without, the consistency
    check: the legacy inference, then either the default resolution or the
    explicit resolution.  Returns the pod as mutated so far, and either the
    error [admitPod] returns at that point or the value of its local
    variable [priority]. *)
Definition admitPod_resolve (fg : FeatureGate) (p : priorityPlugin)
           (a : Attributes) (pod : Pod) : Pod * result Z :=
  let pod :=
    if (String.length (PriorityClassName (Spec pod)) =? 0)%nat
       && Enabled fg ExperimentalCriticalPodAnnotation
       && IsCritical K (GetNamespace a) (Annotations pod)
    then setPriorityClassName pod (SystemClusterCritical K)
    else pod in
  if (String.length (PriorityClassName (Spec pod)) =? 0)%nat then
    match getDefaultPriority p with
    | Err err =>
        (pod, Err (errorString
                     ("failed to get default priority class: " ++ Error err)))
    | Ok (pcName, priority) =>
        (setPriorityClassName pod pcName, Ok priority)
    end
  else
    let pcName := PriorityClassName (Spec pod) in
    if negb (priorityClassPermittedInNamespace pcName (GetNamespace a)) then
      (pod, Err (NewForbidden a
                   (errorString ("pods with " ++ pcName
                      ++ " priorityClass is not permitted in "
                      ++ GetNamespace a ++ " namespace"))))
    else
      match Get (lister p) (PriorityClassName (Spec pod)) with
      | Err err =>
          if IsNotFound err then
            (pod, Err (NewForbidden a
                         (errorString ("no PriorityClass with name "
                            ++ PriorityClassName (Spec pod) ++ " was found"))))
          else
            (pod, Err (errorString
                         ("failed to get PriorityClass with name "
                            ++ PriorityClassName (Spec pod) ++ ": "
                            ++ Error err)))
      | Ok pc => (pod, Ok (Value pc))
      end.

Definition admitPod (fg : FeatureGate) (p : priorityPlugin) (a : Attributes)
  : Object * option error :=
  let operation := GetOperation a in
  match GetObject a with
  | PodObject pod =>
      match operation with
      | Update =>
          match GetOldObject a with
          | PodObject oldPod =>
              match Priority (Spec pod), Priority (Spec oldPod) with
              | None, Some v => (PodObject (setPriority pod (Some v)), None)
              | _, _ => (PodObject pod, None)
              end
          | _ => (PodObject pod, Some (NewBadRequest msgNotPod))
          end
      | Create =>
          match admitPod_resolve fg p a pod with
          | (pod, Err err) => (PodObject pod, Some err)
          | (pod, Ok priority) =>
              match Priority (Spec pod) with
              | Some given =>
                  if negb (given =? priority) then
                    (PodObject pod,
                     Some (NewForbidden a
                       (errorString
                          ("the integer value of priority (" ++ fmt_d given
                             ++ ") must not be provided in pod spec; priority admission controller computed "
                             ++ fmt_d priority
                             ++ " from the given PriorityClass name"))))
                  else (PodObject (setPriority pod (Some priority)), None)
              | None => (PodObject (setPriority pod (Some priority)), None)
              end
          end
      | _ => (PodObject pod, None)
      end
  | o => (o, Some (NewBadRequest msgNotPod))
  end.

(** *** validatePriorityClass *)

Definition operation_eqb (x y : Operation) : bool :=
  match x, y with
  | Create, Create | Update, Update | Delete, Delete | Connect, Connect => true
  | _, _ => false
  end.

Definition validatePriorityClass (p : priorityPlugin) (a : Attributes)
  : option error :=
  let operation := GetOperation a in
  match GetObject a with
  | PriorityClassObject pc =>
      if GlobalDefault pc then
        match getDefaultPriorityClass p with
        | Err err =>
            Some (errorString
                    ("failed to get default priority class: " ++ Error err))
        | Ok (Some dpc) =>
            if operation_eqb operation Create
               || (operation_eqb operation Update
                   && negb (Name dpc =? Name pc)%string)
            then Some (NewForbidden a
                   (errorString ("PriorityClass " ++ Name dpc
                      ++ " is already marked as default. Only one default can exist")))
            else None
        | Ok None => None
        end
      else None
  | _ =>
      Some (NewBadRequest
        "resource was marked with kind PriorityClass but was unable to be converted")
  end.

(** *** Admit and Validate *)

Definition Admit (fg : FeatureGate) (p : priorityPlugin) (a : Attributes)
  : Object * option error :=
  if negb (Enabled fg PodPriority) then (GetObject a, None)
  else
    let operation := GetOperation a in
    if negb (String.length (GetSubresource a) =? 0)%nat then
      (GetObject a, None)
    else if GroupResource_eqb (GetResource a) podResource then
      if operation_eqb operation Create || operation_eqb operation Update
      then admitPod fg p a
      else (GetObject a, None)
    else (GetObject a, None).

Definition Validate (fg : FeatureGate) (p : priorityPlugin) (a : Attributes)
  : option error :=
  let operation := GetOperation a in
  if negb (String.length (GetSubresource a) =? 0)%nat then None
  else if GroupResource_eqb (GetResource a) priorityClassResource then
    if operation_eqb operation Create || operation_eqb operation Update
    then validatePriorityClass p a
    else None
  else None.

End Plugin.

Arguments defaultStep defaultPC pci : simpl nomatch.

(** ** A concrete instantiation

    One choice of the imported constants, after the specification's
    description of them (a cluster-critical and a node-critical reserved
    class, the "system-cluster-critical" identifier, one system namespace, a
    critical marker carried as an annotation); used only to run the
    definitions on concrete requests. *)

Definition CriticalPodAnnotationKey : string :=
  "scheduler.alpha.kubernetes.io/critical-pod".

Fixpoint lookupAnnotation (m : AnnotationMap) (k : string) : option string :=
  match m with
  | [] => None
  | (k', v) :: rest =>
      if (k' =? k)%string then Some v else lookupAnnotation rest k
  end.

Definition upstream : Imports :=
  mkImports
    [ mkPriorityClass "system-node-critical" 2000001000 false;
      mkPriorityClass "system-cluster-critical" 2000000000 false ]
    "kube-system"
    "system-cluster-critical"
    0
    (fun ns annotations =>
       (ns =? "kube-system")%string
       && match lookupAnnotation annotations CriticalPodAnnotationKey with
          | Some v => (v =? "")%string
          | None => false
          end)
    ""
    "scheduling.k8s.io".

(** All gates on / the legacy annotation gate off. *)
Definition allEnabled : FeatureGate := fun _ => true.

Definition priorityOnly : FeatureGate :=
  fun f => match f with PodPriority => true | _ => false end.

Definition allDisabled : FeatureGate := fun _ => false.

(** A lister over a snapshot of the index: [Get] finds the class of that
    name or reports NotFound, [List] returns the snapshot. *)
Fixpoint findClass (l : list PriorityClass) (name : string)
  : result PriorityClass :=
  match l with
  | [] => Err (StatusError StatusReasonNotFound
                 ("priorityclass " ++ name ++ " not found"))
  | c :: rest => if (Name c =? name)%string then Ok c else findClass rest name
  end.

Definition snapshotLister (l : list PriorityClass) : PriorityClassLister :=
  mkLister (findClass l) (Ok l).

Definition snapshotPlugin (l : list PriorityClass) : priorityPlugin :=
  mkPlugin (snapshotLister l).

(** A lister whose backing index cannot be read. *)
Definition brokenLister : PriorityClassLister :=
  mkLister (fun _ => Err (errorString "index unavailable"))
           (Err (errorString "index unavailable")).

Definition brokenPlugin : priorityPlugin := mkPlugin brokenLister.

Definition plainPod (className : string) (priority : option Z) : Pod :=
  mkPod "web-0" "default" [] (mkPodSpec className priority "").

Definition podRequest (op : Operation) (ns : string) (new old : Object)
  : Attributes :=
  mkAttributes op (podResource upstream) "" new old ns "web-0".

Definition classRequest (op : Operation) (pc : PriorityClass) : Attributes :=
  mkAttributes op (priorityClassResource upstream) ""
               (PriorityClassObject pc) NilObject "" (Name pc).

(** ** Notions used to state the properties *)

(** The legacy critical-pod inference applies to this pod: the second and
    third conjunct of the condition of its [if] in [admitPod]. *)
Definition legacyFires (K : Imports) (fg : FeatureGate) (a : Attributes)
           (pod : Pod) : bool :=
  Enabled fg ExperimentalCriticalPodAnnotation
  && IsCritical K (GetNamespace a) (Annotations pod).

(** The state of the priority field after an admission of the pod [pod]
    that returned the object [o'] and the error [e]: after a Create without
    error the priority is set; after an Update a priority the new pod carried
    is kept, and a priority the old pod carried is not replaced by an empty
    one. *)
Definition populatedAndKept (a : Attributes) (pod : Pod) (o' : Object)
           (e : option error) : Prop :=
  exists pod',
    o' = PodObject pod'
    /\ (GetOperation a = Create -> e = None ->
        exists v, Priority (Spec pod') = Some v)
    /\ (GetOperation a = Update ->
        (forall v, Priority (Spec pod) = Some v ->
                   Priority (Spec pod') = Some v)
        /\ (forall oldPod v,
               GetOldObject a = PodObject oldPod ->
               Priority (Spec oldPod) = Some v ->
               exists w, Priority (Spec pod') = Some w)).

(** The reserved names of the namespace policy. *)
Definition reservedNames (K : Imports) : list string :=
  map Name (SystemPriorityClasses K).

(** Two global defaults visible at once, as after a create/create race. *)
Definition racedIndex : list PriorityClass :=
  [ mkPriorityClass "gold" 10 true;
    mkPriorityClass "bronze" 5 true;
    mkPriorityClass "plain" 100 false ].

Definition noDefaultIndex : list PriorityClass :=
  [ mkPriorityClass "plain" 100 false;
    mkPriorityClass "system-cluster-critical" 2000000000 false ].

Definition oneDefaultIndex : list PriorityClass :=
  [ mkPriorityClass "plain" 100 false;
    mkPriorityClass "gold" 10 true ].

(** Requests used in the examples. *)
Definition createPod (ns : string) (pod : Pod) : Attributes :=
  podRequest Create ns (PodObject pod) NilObject.

Definition updatePod (pod oldPod : Pod) : Attributes :=
  podRequest Update "default" (PodObject pod) (PodObject oldPod).

Definition gold : PriorityClass := mkPriorityClass "gold" 10 true.

Definition bronze : PriorityClass := mkPriorityClass "bronze" 5 true.

(** The request [a] with the object under admission replaced by [o], as when
    a client sends again an object the plugin already handled. *)
Definition withObject (a : Attributes) (o : Object) : Attributes :=
  mkAttributes (GetOperation a) (GetResource a) (GetSubresource a) o
               (GetOldObject a) (GetNamespace a) (GetName a).

(** The priority of [pod'] is the value of the class it names, which the
    index holds and the namespace policy permits. *)
Definition classJustifies (K : Imports) (p : priorityPlugin) (a : Attributes)
           (pod' : Pod) : Prop :=
  priorityClassPermittedInNamespace K (PriorityClassName (Spec pod'))
                                    (GetNamespace a) = true
  /\ exists pc, Get (lister p) (PriorityClassName (Spec pod')) = Ok pc
                /\ Priority (Spec pod') = Some (Value pc).

(** The class name and the priority of [pod'] are those of the default
    resolution. *)
Definition defaultJustifies (K : Imports) (p : priorityPlugin) (pod' : Pod)
  : Prop :=
  exists v, getDefaultPriority K p = Ok (PriorityClassName (Spec pod'), v)
            /\ Priority (Spec pod') = Some v.

(** ** Initialisation of the plugin (newPlugin, ValidateInitialization and
    the two setters)

    While the plugin is being set up its [client] and [lister] may still be
    nil, so here they are options.  The client is stored and never called;
    its type is a parameter. *)
Module Init.
Section Fields.

Variable kubernetes_Interface : Type.

(** Modelled from the spec: [admission.Handler], the operations the plugin
    handles and its readiness probe, unset until [SetReadyFunc]. *)
Record Handler : Type := mkHandler {
  operations : list Operation;
  readyFunc : option (unit -> bool)
}.

Definition NewHandler (ops : list Operation) : Handler := mkHandler ops None.

Definition SetReadyFunc (h : Handler) (f : unit -> bool) : Handler :=
  mkHandler (operations h) (Some f).

(** Modelled from the spec: the part of [informers.SharedInformerFactory] the
    plugin reads, the informer [f.Scheduling().V1().PriorityClasses()] with
    its lister and its [HasSynced] probe. *)
Record PriorityClassInformer : Type := mkInformer {
  Lister : PriorityClassLister;
  HasSynced : unit -> bool
}.

Record SharedInformerFactory : Type := mkFactory {
  PriorityClasses : PriorityClassInformer
}.

Record priorityPlugin : Type := mkPlugin {
  handler : Handler;
  client : option kubernetes_Interface;
  lister : option PriorityClassLister
}.

Definition PluginName : string := "Priority".

Definition newPlugin : priorityPlugin :=
  mkPlugin (NewHandler [Create; Update; Delete]) None None.

Definition ValidateInitialization (p : priorityPlugin) : option error :=
  match client p with
  | None => Some (errorString (PluginName ++ " requires a client"))
  | Some _ =>
      match lister p with
      | None => Some (errorString (PluginName ++ " requires a lister"))
      | Some _ => None
      end
  end.

Definition SetExternalKubeClientSet (p : priorityPlugin)
           (c : option kubernetes_Interface) : priorityPlugin :=
  mkPlugin (handler p) c (lister p).

Definition SetExternalKubeInformerFactory (p : priorityPlugin)
           (f : SharedInformerFactory) : priorityPlugin :=
  let priorityInformer := PriorityClasses f in
  mkPlugin (SetReadyFunc (handler p) (HasSynced priorityInformer))
           (client p)
           (Some (Lister priorityInformer)).

End Fields.

Arguments mkPlugin {kubernetes_Interface} handler client lister.
Arguments handler {kubernetes_Interface} p.
Arguments client {kubernetes_Interface} p.
Arguments lister {kubernetes_Interface} p.
Arguments ValidateInitialization {kubernetes_Interface} p.
Arguments SetExternalKubeClientSet {kubernetes_Interface} p c.
Arguments SetExternalKubeInformerFactory {kubernetes_Interface} p f.

End Init.

(** ** Counter options of the metrics package (KubeOpts, CounterOpts)

    A [sync.Once] is its done flag: [Do] runs the function when the flag is
    unset and sets it.  The version type of the semver package and its
    [String] method are parameters. *)
Module Metrics.
Section Opts.

Variable Version : Type.
Variable Version_String : Version -> string.

Definition Labels : Type := list (string * string).

Definition StabilityLevel : Type := string.

Definition ALPHA : StabilityLevel := "ALPHA".

Definition STABLE : StabilityLevel := "STABLE".

Record CounterOpts : Type := mkCounterOpts {
  Namespace : string;
  Subsystem : string;
  Name : string;
  Help : string;
  ConstLabels : Labels;
  DeprecatedVersion : option Version;
  deprecateOnce : bool;
  annotateOnce : bool;
  optsStabilityLevel : StabilityLevel
}.

(** [%v] of a [*semver.Version]: its [String()], or the text fmt prints for a
    nil pointer. *)
Definition fmt_v_version (v : option Version) : string :=
  match v with
  | Some v => Version_String v
  | None => "<nil>"
  end.

Definition markDeprecated (o : CounterOpts) : CounterOpts :=
  if deprecateOnce o then o
  else mkCounterOpts (Namespace o) (Subsystem o) (Name o)
         ("(Deprecated since " ++ fmt_v_version (DeprecatedVersion o) ++ ") "
            ++ Help o)
         (ConstLabels o) (DeprecatedVersion o) true (annotateOnce o)
         (optsStabilityLevel o).

Definition annotateStabilityLevel (o : CounterOpts) : CounterOpts :=
  if annotateOnce o then o
  else mkCounterOpts (Namespace o) (Subsystem o) (Name o)
         ("[" ++ optsStabilityLevel o ++ "] " ++ Help o)
         (ConstLabels o) (DeprecatedVersion o) (deprecateOnce o) true
         (optsStabilityLevel o).

Record prometheus_CounterOpts : Type := mkPromCounterOpts {
  promNamespace : string;
  promSubsystem : string;
  promName : string;
  promHelp : string;
  promConstLabels : Labels
}.

Definition toPromCounterOpts (o : CounterOpts) : prometheus_CounterOpts :=
  mkPromCounterOpts (Namespace o) (Subsystem o) (Name o) (Help o)
                    (ConstLabels o).

(** The two decorations of the help text, to speak of sequences of calls. *)
Inductive Decoration : Type := Deprecate | Annotate.

Definition decorate (o : CounterOpts) (d : Decoration) : CounterOpts :=
  match d with
  | Deprecate => markDeprecated o
  | Annotate => annotateStabilityLevel o
  end.

Definition decorateAll (ds : list Decoration) (o : CounterOpts)
  : CounterOpts :=
  fold_left decorate ds o.

(** The help texts the two decorations write over the text [h]. *)
Definition deprecatedHelp (o : CounterOpts) (h : string) : string :=
  "(Deprecated since " ++ fmt_v_version (DeprecatedVersion o) ++ ") " ++ h.

Definition annotatedHelp (o : CounterOpts) (h : string) : string :=
  "[" ++ optsStabilityLevel o ++ "] " ++ h.

(** How the options [o'] stand to the undecorated options [o]: the done
    flags tell which decorations the help text of [o'] carries, each once. *)
Definition helpState (o o' : CounterOpts) : Prop :=
  DeprecatedVersion o' = DeprecatedVersion o
  /\ optsStabilityLevel o' = optsStabilityLevel o
  /\ match deprecateOnce o', annotateOnce o' with
     | false, false => Help o' = Help o
     | true, false => Help o' = deprecatedHelp o (Help o)
     | false, true => Help o' = annotatedHelp o (Help o)
     | true, true =>
         Help o' = annotatedHelp o (deprecatedHelp o (Help o))
         \/ Help o' = deprecatedHelp o (annotatedHelp o (Help o))
     end.

End Opts.

Arguments mkCounterOpts {Version}.
Arguments Namespace {Version} c.
Arguments Subsystem {Version} c.
Arguments Name {Version} c.
Arguments Help {Version} c.
Arguments ConstLabels {Version} c.
Arguments DeprecatedVersion {Version} c.
Arguments deprecateOnce {Version} c.
Arguments annotateOnce {Version} c.
Arguments optsStabilityLevel {Version} c.
Arguments toPromCounterOpts {Version} o.

(** Options of a counter deprecated since the version printed "1.14.0". *)
Definition sampleOpts : CounterOpts string :=
  mkCounterOpts "apiserver" "admission" "rejections_total"
                "Number of rejected requests" [] (Some "1.14.0")
                false false ALPHA.

End Metrics.

(** Initialisation examples: a client and an informer over a snapshot. *)
Definition sampleFactory : Init.SharedInformerFactory :=
  Init.mkFactory (Init.mkInformer (snapshotLister oneDefaultIndex)
                                  (fun _ => true)).

(** Two defaults that tie on the lowest value, behind a class that is no
    default. *)
Definition tiedIndex : list PriorityClass :=
  [ mkPriorityClass "plain" 100 false;
    mkPriorityClass "first" 7 true;
    mkPriorityClass "second" 7 true ].

(** A pod of the system namespace that carries the critical-pod marker. *)
Definition criticalPod : Pod :=
  mkPod "dns" "kube-system" [(CriticalPodAnnotationKey, "")]
        (mkPodSpec "" None "").

(** A request on the status subresource of a pod. *)
Definition statusRequest : Attributes :=
  mkAttributes Update (podResource upstream) "status"
               (PodObject (plainPod "" None))
               (PodObject (plainPod "" (Some 7))) "default" "web-0".

(** ** Basic facts *)

Lemma length_zero_empty (s : string) :
  (String.length s =? 0)%nat = true <-> s = "".
Proof.
  destruct s as [|c s]; simpl; split; intro H;
    reflexivity || discriminate.
Qed.

Lemma length_zero_nonempty (s : string) :
  (String.length s =? 0)%nat = false <-> s <> "".
Proof.
  destruct s as [|c s]; simpl; split; intro H;
    try reflexivity; try discriminate; congruence.
Qed.

Lemma NewForbidden_kind (a : Attributes) (e : error) :
  kindOf (NewForbidden a e) = Some PolicyViolation.
Proof. reflexivity. Qed.

Lemma NewBadRequest_kind (m : string) :
  kindOf (NewBadRequest m) = Some MalformedInput.
Proof. reflexivity. Qed.

Lemma int32_in_range (z : Z) :
  - 2 ^ 31 <= z < 2 ^ 31 -> int32 z = z.
Proof.
  intros H. unfold int32.
  rewrite Z.mod_small; lia.
Qed.

(** *** The namespace policy *)

Lemma permittedLoop_false (K : Imports) (spcs : list PriorityClass)
      (name ns : string) :
  permittedLoop K spcs name ns = false <->
  In name (map Name spcs) /\ ns <> NamespaceSystem K.
Proof.
  induction spcs as [|spc rest IH]; simpl.
  - split; [discriminate | intros [[] _]].
  - destruct (String.eqb_spec (Name spc) name) as [Hn|Hn];
      destruct (String.eqb_spec ns (NamespaceSystem K)) as [Hs|Hs]; simpl.
    + rewrite IH. split; intros [H1 H2]; contradiction.
    + split; [intros _; auto | reflexivity].
    + rewrite IH. split; intros [H1 H2]; contradiction.
    + rewrite IH. split.
      * intros [H1 H2]; auto.
      * intros [[H1|H1] H2]; [contradiction | auto].
Qed.

(** *** The loop of getDefaultPriorityClass *)

(** What the loop leaves in [defaultPC], for any value it starts from. *)
Lemma defaultLoop_spec (l : list PriorityClass) :
  forall acc : option PriorityClass,
    match fold_left defaultStep l acc with
    | None =>
        acc = None /\ forall q, In q l -> GlobalDefault q = false
    | Some d =>
        (acc = Some d \/ (In d l /\ GlobalDefault d = true))
        /\ (forall q, In q l -> GlobalDefault q = true -> Value d <= Value q)
        /\ (forall c, acc = Some c -> Value d <= Value c)
    end.
Proof.
  induction l as [|x l IH]; intros acc; simpl.
  - destruct acc as [c|].
    + split; [auto | split; [intros q [] | intros c' [= <-]; lia]].
    + split; [reflexivity | intros q []].
  - specialize (IH (defaultStep acc x)).
    destruct (fold_left defaultStep l (defaultStep acc x)) as [d|].
    + destruct IH as (Horigin & Hmin & Hacc).
      unfold defaultStep in Horigin, Hacc.
      destruct (GlobalDefault x) eqn:Hx.
      * destruct acc as [c|].
        -- destruct (Z.gtb_spec (Value c) (Value x)) as [Hgt|Hle].
           ++ pose proof (Hacc x eq_refl) as Hdx.
              split; [|split].
              ** right. destruct Horigin as [[= <-]|[Hin Hd]]; auto.
              ** intros q [<-|Hq] Hq'; auto.
              ** intros c' [= <-]. lia.
           ++ pose proof (Hacc c eq_refl) as Hdc.
              split; [|split].
              ** destruct Horigin as [Heq|[Hin Hd]]; auto.
              ** intros q [<-|Hq] Hq'; [lia | auto].
              ** intros c' [= <-]. exact Hdc.
        -- pose proof (Hacc x eq_refl) as Hdx.
           split; [|split].
           ++ right. destruct Horigin as [[= <-]|[Hin Hd]]; auto.
           ++ intros q [<-|Hq] Hq'; auto.
           ++ intros c' [=].
      * split; [|split].
        -- destruct Horigin as [Heq|[Hin Hd]]; auto.
        -- intros q [<-|Hq] Hq'; [congruence | auto].
        -- exact Hacc.
    + destruct IH as (Hnone & Hall).
      unfold defaultStep in Hnone.
      destruct (GlobalDefault x) eqn:Hx.
      * destruct acc as [c|]; [|discriminate].
        destruct (Value c >? Value x); discriminate.
      * split; [exact Hnone | intros q [<-|Hq]; auto].
Qed.

Lemma defaultLoop_none (l : list PriorityClass) :
  (forall q, In q l -> GlobalDefault q = false) ->
  fold_left defaultStep l None = None.
Proof.
  intros Hall. pose proof (defaultLoop_spec l None) as H.
  destruct (fold_left defaultStep l None) as [d|]; [|reflexivity].
  destruct H as ([Hd|[Hin Hd]] & _); [discriminate|].
  rewrite (Hall d Hin) in Hd. discriminate.
Qed.

Lemma defaultLoop_some (l : list PriorityClass) (c : PriorityClass) :
  In c l -> GlobalDefault c = true ->
  exists d, fold_left defaultStep l None = Some d
            /\ In d l /\ GlobalDefault d = true
            /\ forall q, In q l -> GlobalDefault q = true ->
                         Value d <= Value q.
Proof.
  intros Hin Hc. pose proof (defaultLoop_spec l None) as H.
  destruct (fold_left defaultStep l None) as [d|].
  - destruct H as ([Hd|[Hdin Hd]] & Hmin & _); [discriminate|].
    exists d; auto.
  - destruct H as (_ & Hall). rewrite (Hall c Hin) in Hc. discriminate.
Qed.

(** *** Unfolding admitPod along its branches *)

Lemma admitPod_create (K : Imports) (fg : FeatureGate) (p : priorityPlugin)
      (a : Attributes) (pod : Pod) :
  GetOperation a = Create -> GetObject a = PodObject pod ->
  admitPod K fg p a =
  match admitPod_resolve K fg p a pod with
  | (pod', Err err) => (PodObject pod', Some err)
  | (pod', Ok priority) =>
      match Priority (Spec pod') with
      | Some given =>
          if negb (given =? priority) then
            (PodObject pod',
             Some (NewForbidden a
               (errorString
                  ("the integer value of priority (" ++ fmt_d given
                     ++ ") must not be provided in pod spec; priority admission controller computed "
                     ++ fmt_d priority
                     ++ " from the given PriorityClass name"))))
          else (PodObject (setPriority pod' (Some priority)), None)
      | None => (PodObject (setPriority pod' (Some priority)), None)
      end
  end.
Proof.
  intros Hop Hobj. unfold admitPod. rewrite Hop, Hobj. reflexivity.
Qed.

Lemma admitPod_update (K : Imports) (fg : FeatureGate) (p : priorityPlugin)
      (a : Attributes) (pod oldPod : Pod) :
  GetOperation a = Update -> GetObject a = PodObject pod ->
  GetOldObject a = PodObject oldPod ->
  admitPod K fg p a =
  (PodObject (setPriority pod
                (match Priority (Spec pod) with
                 | Some w => Some w
                 | None => Priority (Spec oldPod)
                 end)), None).
Proof.
  intros Hop Hobj Hold. unfold admitPod. rewrite Hop, Hobj, Hold.
  destruct pod as [n ns ann [cn pr nn]]; simpl.
  destruct pr as [w|]; [reflexivity|].
  destruct (Priority (Spec oldPod)); reflexivity.
Qed.

(** The default resolution: the class name is empty once the legacy
    inference is over. *)
Lemma resolve_default (K : Imports) (fg : FeatureGate) (p : priorityPlugin)
      (a : Attributes) (pod : Pod) :
  PriorityClassName (Spec pod) = "" -> legacyFires K fg a pod = false ->
  admitPod_resolve K fg p a pod =
  match getDefaultPriority K p with
  | Err err =>
      (pod, Err (errorString
                   ("failed to get default priority class: " ++ Error err)))
  | Ok (name, priority) => (setPriorityClassName pod name, Ok priority)
  end.
Proof.
  intros Hname Hlegacy. unfold admitPod_resolve, legacyFires in *.
  rewrite Hname. simpl String.length. simpl Nat.eqb.
  rewrite andb_true_l, Hlegacy. rewrite Hname. reflexivity.
Qed.

(** The explicit resolution: the caller named a class. *)
Lemma resolve_explicit (K : Imports) (fg : FeatureGate) (p : priorityPlugin)
      (a : Attributes) (pod : Pod) :
  PriorityClassName (Spec pod) <> "" ->
  admitPod_resolve K fg p a pod =
  let name := PriorityClassName (Spec pod) in
  if negb (priorityClassPermittedInNamespace K name (GetNamespace a)) then
    (pod, Err (NewForbidden a
                 (errorString ("pods with " ++ name
                    ++ " priorityClass is not permitted in "
                    ++ GetNamespace a ++ " namespace"))))
  else
    match Get (lister p) name with
    | Err err =>
        if IsNotFound err then
          (pod, Err (NewForbidden a
                       (errorString ("no PriorityClass with name "
                          ++ name ++ " was found"))))
        else
          (pod, Err (errorString
                       ("failed to get PriorityClass with name "
                          ++ name ++ ": " ++ Error err)))
    | Ok pc => (pod, Ok (Value pc))
    end.
Proof.
  intros Hname. apply length_zero_nonempty in Hname.
  unfold admitPod_resolve. rewrite Hname. simpl andb. cbv iota.
  rewrite Hname. reflexivity.
Qed.

(** The resolution step writes the class name only. *)
Lemma resolve_frame (K : Imports) (fg : FeatureGate) (p : priorityPlugin)
      (a : Attributes) (pod pod' : Pod) (r : result Z) :
  admitPod_resolve K fg p a pod = (pod', r) ->
  exists name, pod' = setPriorityClassName pod name.
Proof.
  assert (Heta : pod = setPriorityClassName pod (PriorityClassName (Spec pod)))
    by (destruct pod as [n ns ann [cn pr nn]]; reflexivity).
  assert (Hidem : forall n m,
             setPriorityClassName (setPriorityClassName pod n) m
             = setPriorityClassName pod m) by reflexivity.
  unfold admitPod_resolve. intros H.
  repeat match type of H with
         | context [if ?c then _ else _] => destruct c
         | context [match ?c with Ok _ => _ | Err _ => _ end] => destruct c
         | context [let (_, _) := ?c in _] => destruct c
         end;
    inversion H; subst; eauto.
Qed.

Lemma resolve_keeps_priority (K : Imports) (fg : FeatureGate)
      (p : priorityPlugin) (a : Attributes) (pod pod' : Pod) (r : result Z) :
  admitPod_resolve K fg p a pod = (pod', r) ->
  Priority (Spec pod') = Priority (Spec pod).
Proof.
  intros H. apply resolve_frame in H. destruct H as [name ->]. reflexivity.
Qed.

(** A pod that names a listed class, permitted in its namespace, resolves to
    the value of that class. *)
Lemma resolve_named_class (K : Imports) (fg : FeatureGate)
      (p : priorityPlugin) (a : Attributes) (pod : Pod) (pc : PriorityClass) :
  PriorityClassName (Spec pod) <> "" ->
  priorityClassPermittedInNamespace K (PriorityClassName (Spec pod))
                                    (GetNamespace a) = true ->
  Get (lister p) (PriorityClassName (Spec pod)) = Ok pc ->
  admitPod_resolve K fg p a pod = (pod, Ok (Value pc)).
Proof.
  intros Hname Hperm Hget.
  rewrite (resolve_explicit K fg p a pod Hname). cbv zeta.
  rewrite Hperm, Hget. reflexivity.
Qed.

(** A reserved class named outside the system namespace is refused before
    the index is consulted. *)
Lemma resolve_not_permitted (K : Imports) (fg : FeatureGate)
      (p : priorityPlugin) (a : Attributes) (pod : Pod) :
  PriorityClassName (Spec pod) <> "" ->
  priorityClassPermittedInNamespace K (PriorityClassName (Spec pod))
                                    (GetNamespace a) = false ->
  exists e, admitPod_resolve K fg p a pod = (pod, Err e)
            /\ kindOf e = Some PolicyViolation.
Proof.
  intros Hname Hperm.
  rewrite (resolve_explicit K fg p a pod Hname). cbv zeta.
  rewrite Hperm. simpl. eexists. split; reflexivity.
Qed.

Lemma GroupResource_eqb_refl (x : GroupResource) : GroupResource_eqb x x = true.
Proof.
  unfold GroupResource_eqb. rewrite !String.eqb_refl. reflexivity.
Qed.

(** With the priority gate on, a Create or Update of the primary pod resource
    is handled by [admitPod]. *)
Lemma Admit_pod (K : Imports) (fg : FeatureGate) (p : priorityPlugin)
      (a : Attributes) :
  Enabled fg PodPriority = true -> GetSubresource a = "" ->
  GetResource a = podResource K ->
  GetOperation a = Create \/ GetOperation a = Update ->
  Admit K fg p a = admitPod K fg p a.
Proof.
  intros Hgate Hsub Hres Hop. unfold Admit.
  rewrite Hgate, Hsub, Hres, GroupResource_eqb_refl. simpl.
  destruct Hop as [-> | ->]; reflexivity.
Qed.

(** A Create or Update of the primary priority-class resource is handled by
    [validatePriorityClass]. *)
Lemma Validate_class (K : Imports) (fg : FeatureGate) (p : priorityPlugin)
      (a : Attributes) :
  GetSubresource a = "" -> GetResource a = priorityClassResource K ->
  GetOperation a = Create \/ GetOperation a = Update ->
  Validate K fg p a = validatePriorityClass p a.
Proof.
  intros Hsub Hres Hop. unfold Validate.
  rewrite Hsub, Hres, GroupResource_eqb_refl. simpl.
  destruct Hop as [-> | ->]; reflexivity.
Qed.

(** ** Properties of the specification *)

(** C8. [priorityClassPermittedInNamespace] (NamespacePolicy.IsPermitted)
    returns false if and only if the class name is one of the reserved system
    priority-class names and the namespace is not the system namespace; every
    other pair of name and namespace is permitted. *)
Theorem permitted_iff_not_reserved_elsewhere (K : Imports)
        (priorityClassName namespace : string) :
  (priorityClassPermittedInNamespace K priorityClassName namespace = false
   <-> In priorityClassName (reservedNames K)
       /\ namespace <> NamespaceSystem K)
  /\ (priorityClassPermittedInNamespace K priorityClassName namespace = true
      <-> ~ (In priorityClassName (reservedNames K)
             /\ namespace <> NamespaceSystem K)).
Proof.
  unfold priorityClassPermittedInNamespace, reservedNames.
  pose proof (permittedLoop_false K (SystemPriorityClasses K)
                priorityClassName namespace) as Hfalse.
  split; [exact Hfalse|].
  destruct (permittedLoop K (SystemPriorityClasses K) priorityClassName
              namespace).
  - split; [|reflexivity].
    intros _ Hres. apply Hfalse in Hres. discriminate.
  - split; [discriminate|].
    intros Hneg. exfalso. apply Hneg. apply Hfalse. reflexivity.
Qed.

(** C1. On a Create of a pod whose class name is empty and stays empty after
    the legacy inference, when the index lists at least one class (hence also
    when it lists more than one) with [GlobalDefault] set, the default that is
    resolved is a listed default class whose value is lowest among all listed
    defaults: [getDefaultPriorityClass] returns it, the resolution step
    computes its value and stamps its name, and the pod that carries no
    priority is admitted with that value. *)
Theorem default_is_lowest_valued (K : Imports) (fg : FeatureGate)
        (p : priorityPlugin) (a : Attributes) (pod : Pod)
        (l : list PriorityClass) (c : PriorityClass) :
  GetOperation a = Create -> GetObject a = PodObject pod ->
  PriorityClassName (Spec pod) = "" -> legacyFires K fg a pod = false ->
  List (lister p) = Ok l -> In c l -> GlobalDefault c = true ->
  exists d,
    In d l /\ GlobalDefault d = true
    /\ (forall q, In q l -> GlobalDefault q = true -> Value d <= Value q)
    /\ getDefaultPriorityClass p = Ok (Some d)
    /\ admitPod_resolve K fg p a pod
       = (setPriorityClassName pod (Name d), Ok (Value d))
    /\ (Priority (Spec pod) = None ->
        admitPod K fg p a
        = (PodObject (setPriority (setPriorityClassName pod (Name d))
                                  (Some (Value d))), None)).
Proof.
  intros Hop Hobj Hname Hlegacy Hlist Hin Hc.
  destruct (defaultLoop_some l c Hin Hc) as (d & Hfold & Hdin & Hd & Hmin).
  assert (Hget : getDefaultPriorityClass p = Ok (Some d)).
  { unfold getDefaultPriorityClass. rewrite Hlist, Hfold. reflexivity. }
  assert (Hres : admitPod_resolve K fg p a pod
                 = (setPriorityClassName pod (Name d), Ok (Value d))).
  { rewrite (resolve_default K fg p a pod Hname Hlegacy).
    unfold getDefaultPriority. rewrite Hget. reflexivity. }
  exists d. repeat split; auto.
  intros Hprio. rewrite (admitPod_create K fg p a pod Hop Hobj), Hres.
  simpl. rewrite Hprio. reflexivity.
Qed.

(** C5. On a Create of a pod with no priority and no class name, the legacy
    inference not applying, when no listed class has [GlobalDefault] set, the
    pod is admitted with the fallback constant as its priority and its class
    name is still empty. *)
Theorem fallback_without_default (K : Imports) (fg : FeatureGate)
        (p : priorityPlugin) (a : Attributes) (pod : Pod)
        (l : list PriorityClass) :
  GetOperation a = Create -> GetObject a = PodObject pod ->
  PriorityClassName (Spec pod) = "" -> Priority (Spec pod) = None ->
  legacyFires K fg a pod = false ->
  List (lister p) = Ok l ->
  (forall q, In q l -> GlobalDefault q = false) ->
  let fallback := int32 (DefaultPriorityWhenNoDefaultClassExists K) in
  exists pod',
    admitPod K fg p a = (PodObject pod', None)
    /\ Priority (Spec pod') = Some fallback
    /\ PriorityClassName (Spec pod') = ""
    /\ pod' = setPriority pod (Some fallback).
Proof.
  intros Hop Hobj Hname Hprio Hlegacy Hlist Hnone fallback.
  rewrite (admitPod_create K fg p a pod Hop Hobj).
  rewrite (resolve_default K fg p a pod Hname Hlegacy).
  unfold getDefaultPriority, getDefaultPriorityClass.
  rewrite Hlist, (defaultLoop_none l Hnone). simpl.
  rewrite Hprio.
  eexists. split; [reflexivity|]. simpl.
  repeat split. unfold setPriority, setPriorityClassName. simpl.
  rewrite Hname. reflexivity.
Qed.

(** C6. On a Create of a pod that already carries a priority, where the
    resolution step (explicit class, default class or fallback) computes a
    value: if the carried value differs from the computed one the admission
    fails with a Forbidden (policy-violation) error; if it equals the computed
    one the admission succeeds and the pod's priority is the carried value,
    unchanged. *)
Theorem carried_priority_must_match (K : Imports) (fg : FeatureGate)
        (p : priorityPlugin) (a : Attributes) (pod pod' : Pod)
        (given computed : Z) :
  GetOperation a = Create -> GetObject a = PodObject pod ->
  Priority (Spec pod) = Some given ->
  admitPod_resolve K fg p a pod = (pod', Ok computed) ->
  (given <> computed ->
   exists e, admitPod K fg p a = (PodObject pod', Some e)
             /\ kindOf e = Some PolicyViolation
             /\ Priority (Spec pod') = Some given)
  /\ (given = computed ->
      exists pod'', admitPod K fg p a = (PodObject pod'', None)
                    /\ Priority (Spec pod'') = Some given
                    /\ pod'' = setPriority pod' (Some given)).
Proof.
  intros Hop Hobj Hprio Hres.
  pose proof (resolve_keeps_priority K fg p a pod pod' _ Hres) as Hkeep.
  rewrite Hprio in Hkeep.
  rewrite (admitPod_create K fg p a pod Hop Hobj), Hres, Hkeep.
  split; intros Hcmp.
  - apply Z.eqb_neq in Hcmp. rewrite Hcmp. simpl.
    eexists. split; [reflexivity|]. split; reflexivity.
  - subst computed. rewrite Z.eqb_refl. simpl.
    eexists. split; [reflexivity|]. split; reflexivity.
Qed.

(** C9. On a Create of a pod: when it names a class that passes the namespace
    check and the lookup of that class fails, the admission fails with a
    Forbidden (policy-violation) error if the failure is NotFound and with a
    plain (transient) error, which is not a Forbidden one, for every other
    lookup failure; when it names no class, the legacy inference not
    applying, and listing the index fails, the admission fails with a plain
    (transient) error too.  The pod is left as it was. *)
Theorem index_failures_by_kind (K : Imports) (fg : FeatureGate)
        (p : priorityPlugin) (a : Attributes) (pod : Pod) (err : error) :
  GetOperation a = Create -> GetObject a = PodObject pod ->
  (PriorityClassName (Spec pod) <> "" ->
   priorityClassPermittedInNamespace K (PriorityClassName (Spec pod))
                                     (GetNamespace a) = true ->
   Get (lister p) (PriorityClassName (Spec pod)) = Err err ->
   exists e, admitPod K fg p a = (PodObject pod, Some e)
             /\ (IsNotFound err = true -> kindOf e = Some PolicyViolation)
             /\ (IsNotFound err = false ->
                 kindOf e = Some Transient /\ IsForbidden e = false))
  /\ (PriorityClassName (Spec pod) = "" -> legacyFires K fg a pod = false ->
      List (lister p) = Err err ->
      exists e, admitPod K fg p a = (PodObject pod, Some e)
                /\ kindOf e = Some Transient /\ IsForbidden e = false).
Proof.
  intros Hop Hobj.
  rewrite (admitPod_create K fg p a pod Hop Hobj). split.
  - intros Hname Hperm Hget.
    rewrite (resolve_explicit K fg p a pod Hname). cbv zeta.
    rewrite Hperm, Hget. simpl negb. cbv iota.
    destruct (IsNotFound err); eexists; (split; [reflexivity|]);
      split; intros H; try discriminate; auto.
  - intros Hname Hlegacy Hlist.
    rewrite (resolve_default K fg p a pod Hname Hlegacy).
    unfold getDefaultPriority, getDefaultPriorityClass. rewrite Hlist.
    eexists. split; [reflexivity|]. split; reflexivity.
Qed.

Lemma admitPod_populatedAndKept (K : Imports) (fg : FeatureGate)
      (p : priorityPlugin) (a : Attributes) (pod : Pod)
      (o' : Object) (e : option error) :
  GetObject a = PodObject pod ->
  admitPod K fg p a = (o', e) ->
  populatedAndKept a pod o' e.
Proof.
  intros Hobj Hrun. unfold populatedAndKept.
  destruct (GetOperation a) eqn:Hop.
  - (* Create *)
    rewrite (admitPod_create K fg p a pod Hop Hobj) in Hrun.
    destruct (admitPod_resolve K fg p a pod) as [q [priority|err]].
    + destruct (Priority (Spec q)) as [given|].
      * destruct (negb (given =? priority)); inversion Hrun; subst;
          eexists; (split; [reflexivity|]); (split; [|discriminate]);
          intros _ Hnil; try discriminate; simpl; eauto.
      * inversion Hrun; subst. eexists. split; [reflexivity|].
        split; [|discriminate]. intros _ _. simpl. eauto.
    + inversion Hrun; subst. eexists. split; [reflexivity|].
      split; [|discriminate]. intros _ Hnil. discriminate.
  - (* Update *)
    unfold admitPod in Hrun. rewrite Hop, Hobj in Hrun.
    destruct (GetOldObject a) as [oldPod| | |] eqn:Hold.
    + destruct (Priority (Spec pod)) as [w|] eqn:Hw.
      * inversion Hrun; subst. exists pod. split; [reflexivity|].
        split; [discriminate|]. intros _. split.
        -- intros v Hv. congruence.
        -- intros old v _ _. eauto.
      * destruct (Priority (Spec oldPod)) as [v0|] eqn:Hv0;
          inversion Hrun; subst; eexists; (split; [reflexivity|]);
          (split; [discriminate|]); intros _; split.
        -- intros v Hv. congruence.
        -- intros old v _ _. simpl. eauto.
        -- intros v Hv. congruence.
        -- intros old v [= <-] Hv. congruence.
    + inversion Hrun; subst. exists pod. split; [reflexivity|].
      split; [discriminate|]. intros _. split; [auto | discriminate].
    + inversion Hrun; subst. exists pod. split; [reflexivity|].
      split; [discriminate|]. intros _. split; [auto | discriminate].
    + inversion Hrun; subst. exists pod. split; [reflexivity|].
      split; [discriminate|]. intros _. split; [auto | discriminate].
  - unfold admitPod in Hrun. rewrite Hop, Hobj in Hrun.
    inversion Hrun; subst. exists pod. split; [reflexivity|].
    split; discriminate.
  - unfold admitPod in Hrun. rewrite Hop, Hobj in Hrun.
    inversion Hrun; subst. exists pod. split; [reflexivity|].
    split; discriminate.
Qed.

(** C4. When the admission of a pod succeeds on a Create, the pod's priority
    is set afterwards; and on an Update, whatever the admission returns, a
    priority the new pod carried is kept and a priority the old pod carried
    is never replaced by an empty one.  This holds of [admitPod], and of
    [Admit] with the priority gate on for a request on the primary pod
    resource, which [Admit] hands to [admitPod]. *)
Theorem priority_populated_and_kept (K : Imports) (fg : FeatureGate)
        (p : priorityPlugin) (a : Attributes) (pod : Pod)
        (o' : Object) (e : option error) :
  GetObject a = PodObject pod ->
  (admitPod K fg p a = (o', e) -> populatedAndKept a pod o' e)
  /\ (Enabled fg PodPriority = true -> GetSubresource a = "" ->
      GetResource a = podResource K ->
      Admit K fg p a = (o', e) -> populatedAndKept a pod o' e).
Proof.
  intros Hobj. split.
  - apply admitPod_populatedAndKept. exact Hobj.
  - intros Hgate Hsub Hres Hrun.
    destruct (GetOperation a) eqn:Hop.
    + rewrite (Admit_pod K fg p a Hgate Hsub Hres (or_introl Hop)) in Hrun.
      apply (admitPod_populatedAndKept K fg p a pod o' e Hobj Hrun).
    + rewrite (Admit_pod K fg p a Hgate Hsub Hres (or_intror Hop)) in Hrun.
      apply (admitPod_populatedAndKept K fg p a pod o' e Hobj Hrun).
    + unfold Admit in Hrun.
      rewrite Hgate, Hsub, Hres, GroupResource_eqb_refl, Hop in Hrun.
      simpl in Hrun. inversion Hrun; subst. exists pod.
      split; [exact Hobj|]. rewrite Hop. split; discriminate.
    + unfold Admit in Hrun.
      rewrite Hgate, Hsub, Hres, GroupResource_eqb_refl, Hop in Hrun.
      simpl in Hrun. inversion Hrun; subst. exists pod.
      split; [exact Hobj|]. rewrite Hop. split; discriminate.
Qed.

(** C7. On an Update of a pod, [admitPod] succeeds and returns the new pod
    with one field possibly written, its priority: the old pod's value is
    copied when the new pod has none, and a pod that carries a priority is
    returned as it is.  Every other field of the pod is as before, and the
    outcome is a function of the two priorities alone: another Update request
    whose new and old pods have these priorities, under any imports, feature
    gates and index, yields the same priority and no error. *)
Theorem update_touches_priority_only (K : Imports) (fg : FeatureGate)
        (p : priorityPlugin) (a : Attributes) (pod oldPod : Pod) :
  GetOperation a = Update -> GetObject a = PodObject pod ->
  GetOldObject a = PodObject oldPod ->
  exists pod',
    admitPod K fg p a = (PodObject pod', None)
    /\ (Priority (Spec pod) = None ->
        Priority (Spec pod') = Priority (Spec oldPod))
    /\ (forall w, Priority (Spec pod) = Some w -> pod' = pod)
    /\ (podName pod' = podName pod
        /\ podNamespace pod' = podNamespace pod
        /\ Annotations pod' = Annotations pod
        /\ PriorityClassName (Spec pod') = PriorityClassName (Spec pod)
        /\ NodeName (Spec pod') = NodeName (Spec pod))
    /\ (forall K2 fg2 p2 a2 pod2 oldPod2,
           GetOperation a2 = Update -> GetObject a2 = PodObject pod2 ->
           GetOldObject a2 = PodObject oldPod2 ->
           Priority (Spec pod2) = Priority (Spec pod) ->
           Priority (Spec oldPod2) = Priority (Spec oldPod) ->
           exists pod2',
             admitPod K2 fg2 p2 a2 = (PodObject pod2', None)
             /\ Priority (Spec pod2') = Priority (Spec pod')).
Proof.
  intros Hop Hobj Hold.
  eexists. split; [apply (admitPod_update K fg p a pod oldPod Hop Hobj Hold)|].
  split; [|split; [|split]].
  - intros Hnone. rewrite Hnone. reflexivity.
  - intros w Hw. rewrite Hw.
    destruct pod as [n ns ann [cn pr nn]]. simpl in Hw. subst pr.
    reflexivity.
  - repeat split.
  - intros K2 fg2 p2 a2 pod2 oldPod2 Hop2 Hobj2 Hold2 Hsame Hsame'.
    eexists.
    split; [apply (admitPod_update K2 fg2 p2 a2 pod2 oldPod2 Hop2 Hobj2 Hold2)|].
    simpl. rewrite Hsame, Hsame'. reflexivity.
Qed.

(** *** The validator *)

(** What [validatePriorityClass] answers for a class that asks to be the
    default, in terms of the class the loop of [getDefaultPriorityClass]
    selects. *)
Lemma validate_default_class (p : priorityPlugin) (a : Attributes)
      (pc : PriorityClass) (l : list PriorityClass) :
  GetObject a = PriorityClassObject pc -> GlobalDefault pc = true ->
  List (lister p) = Ok l ->
  validatePriorityClass p a =
  match fold_left defaultStep l None with
  | Some dpc =>
      if operation_eqb (GetOperation a) Create
         || (operation_eqb (GetOperation a) Update
             && negb (Name dpc =? Name pc)%string)
      then Some (NewForbidden a
             (errorString ("PriorityClass " ++ Name dpc
                ++ " is already marked as default. Only one default can exist")))
      else None
  | None => None
  end.
Proof.
  intros Hobj Hdef Hlist. unfold validatePriorityClass, getDefaultPriorityClass.
  rewrite Hobj, Hdef, Hlist. reflexivity.
Qed.

(** C3. A class that does not ask to be the default passes
    [validatePriorityClass] whatever the operation and the index, even an
    unreadable one.  On a Create of a class with [GlobalDefault] set, given
    the list of the index: if some listed class has [GlobalDefault] set the
    Create fails with a Forbidden (policy-violation) error, and if none has
    it the Create is accepted. *)
Theorem create_default_only_without_default (p : priorityPlugin)
        (a : Attributes) (pc : PriorityClass) :
  GetObject a = PriorityClassObject pc ->
  (GlobalDefault pc = false -> validatePriorityClass p a = None)
  /\ (GetOperation a = Create -> GlobalDefault pc = true ->
      forall l, List (lister p) = Ok l ->
        ((exists c, In c l /\ GlobalDefault c = true) ->
         exists e, validatePriorityClass p a = Some e
                   /\ kindOf e = Some PolicyViolation)
        /\ ((forall q, In q l -> GlobalDefault q = false) ->
            validatePriorityClass p a = None)).
Proof.
  intros Hobj. split.
  - intros Hdef. unfold validatePriorityClass. rewrite Hobj, Hdef.
    reflexivity.
  - intros Hop Hdef l Hlist.
    rewrite (validate_default_class p a pc l Hobj Hdef Hlist), Hop.
    split.
    + intros (c & Hin & Hc).
      destruct (defaultLoop_some l c Hin Hc) as (d & -> & _).
      simpl. eexists. split; reflexivity.
    + intros Hnone. rewrite (defaultLoop_none l Hnone). reflexivity.
Qed.

(** C10. [Validate] does not read the feature gates: under any two settings
    of them it returns the same result on the same request and index.  Only
    [Admit] is gated: with the priority gate off it returns the object as it
    came and no error. *)
Theorem validate_not_gated (K : Imports) (fg1 fg2 : FeatureGate)
        (p : priorityPlugin) (a : Attributes) :
  Validate K fg1 p a = Validate K fg2 p a
  /\ (Enabled fg1 PodPriority = false ->
      Admit K fg1 p a = (GetObject a, None)).
Proof.
  split; [reflexivity|].
  intros Hoff. unfold Admit. rewrite Hoff. reflexivity.
Qed.

(** *** Update of a default class *)

(** X16. An Update of a class with [GlobalDefault] set is accepted when every
    listed default carries the name of the updated class, in particular when
    no default is listed. *)
Lemma update_accepted_when_sole_default (p : priorityPlugin) (a : Attributes)
      (pc : PriorityClass) (l : list PriorityClass) :
  GetOperation a = Update -> GetObject a = PriorityClassObject pc ->
  GlobalDefault pc = true -> List (lister p) = Ok l ->
  (forall q, In q l -> GlobalDefault q = true -> Name q = Name pc) ->
  validatePriorityClass p a = None.
Proof.
  intros Hop Hobj Hdef Hlist Hsole.
  rewrite (validate_default_class p a pc l Hobj Hdef Hlist), Hop.
  pose proof (defaultLoop_spec l None) as Hloop.
  destruct (fold_left defaultStep l None) as [d|]; [|reflexivity].
  destruct Hloop as ([Hd|[Hin Hd]] & _); [discriminate|].
  rewrite (Hsole d Hin Hd), String.eqb_refl. reflexivity.
Qed.

(** X17. An Update of a class with [GlobalDefault] set is rejected as
    Forbidden when a default is listed and every listed default has another
    name. *)
Lemma update_rejected_when_all_defaults_differ (p : priorityPlugin)
      (a : Attributes) (pc c : PriorityClass) (l : list PriorityClass) :
  GetOperation a = Update -> GetObject a = PriorityClassObject pc ->
  GlobalDefault pc = true -> List (lister p) = Ok l ->
  In c l -> GlobalDefault c = true ->
  (forall q, In q l -> GlobalDefault q = true -> Name q <> Name pc) ->
  exists e, validatePriorityClass p a = Some e
            /\ kindOf e = Some PolicyViolation.
Proof.
  intros Hop Hobj Hdef Hlist Hin Hc Hdiffer.
  rewrite (validate_default_class p a pc l Hobj Hdef Hlist), Hop.
  destruct (defaultLoop_some l c Hin Hc) as (d & -> & Hdin & Hd & _).
  apply (Hdiffer d Hdin) in Hd. apply String.eqb_neq in Hd.
  rewrite Hd. simpl. eexists. split; reflexivity.
Qed.

(** C2, on the code: with two defaults listed, "gold" of value 10 and
    "bronze" of value 5, an Update of "bronze" with [GlobalDefault] set is
    accepted although the default "gold", of another name, is listed; the
    same Update of "gold" is rejected as Forbidden. *)
Theorem update_of_lowest_default_accepted :
  In gold racedIndex /\ GlobalDefault gold = true /\ Name gold <> Name bronze
  /\ Validate upstream allEnabled (snapshotPlugin racedIndex)
              (classRequest Update bronze) = None
  /\ validatePriorityClass (snapshotPlugin racedIndex)
                           (classRequest Update bronze) = None
  /\ (exists e, validatePriorityClass (snapshotPlugin racedIndex)
                                     (classRequest Update gold) = Some e
                /\ kindOf e = Some PolicyViolation).
Proof.
  split; [simpl; auto|]. split; [reflexivity|]. split; [discriminate|].
  split; [reflexivity|]. split; [reflexivity|].
  eexists. split; reflexivity.
Qed.

(** ** The properties on concrete requests *)

(** The reserved name "system-node-critical" is refused outside
    "kube-system" and allowed inside it. *)
Lemma permitted_iff_not_reserved_elsewhere_witness :
  priorityClassPermittedInNamespace upstream "system-node-critical" "default"
  = false
  /\ priorityClassPermittedInNamespace upstream "system-node-critical"
                                       "kube-system" = true.
Proof.
  split.
  - apply (proj1 (permitted_iff_not_reserved_elsewhere
                    upstream "system-node-critical" "default")).
    split; [simpl; auto | discriminate].
  - apply (proj2 (permitted_iff_not_reserved_elsewhere
                    upstream "system-node-critical" "kube-system")).
    intros [_ Hns]. apply Hns. reflexivity.
Defined.

(** Two defaults of values 10 and 5 are listed: the pod without a class gets
    priority 5, and the name of that class. *)
Lemma default_is_lowest_valued_witness :
  admitPod upstream priorityOnly (snapshotPlugin racedIndex)
           (createPod "default" (plainPod "" None))
  = (PodObject (plainPod "bronze" (Some 5)), None).
Proof.
  destruct (default_is_lowest_valued
              upstream priorityOnly (snapshotPlugin racedIndex)
              (createPod "default" (plainPod "" None)) (plainPod "" None)
              racedIndex gold
              eq_refl eq_refl eq_refl eq_refl eq_refl
              (or_introl eq_refl) eq_refl)
    as (d & _ & _ & _ & Hget & _ & Hadmit).
  rewrite (Hadmit eq_refl).
  assert (Hd : d = bronze) by (injection Hget; auto).
  rewrite Hd. reflexivity.
Defined.

(** No default is listed: the pod gets the fallback priority, which is 0
    here, and no class name. *)
Lemma fallback_without_default_witness :
  exists pod',
    admitPod upstream priorityOnly (snapshotPlugin noDefaultIndex)
             (createPod "default" (plainPod "" None))
    = (PodObject pod', None)
    /\ Priority (Spec pod') = Some 0
    /\ PriorityClassName (Spec pod') = ""
    /\ pod' = setPriority (plainPod "" None) (Some 0).
Proof.
  apply (fallback_without_default
           upstream priorityOnly (snapshotPlugin noDefaultIndex)
           (createPod "default" (plainPod "" None)) (plainPod "" None)
           noDefaultIndex); try reflexivity.
  intros q [<-|[<-|[]]]; reflexivity.
Defined.

(** The class "plain" has value 100: a pod naming it and carrying 7 is
    refused, one carrying 100 is admitted as it is. *)
Lemma carried_priority_must_match_witness :
  (exists e,
      admitPod upstream priorityOnly (snapshotPlugin noDefaultIndex)
               (createPod "default" (plainPod "plain" (Some 7)))
      = (PodObject (plainPod "plain" (Some 7)), Some e)
      /\ kindOf e = Some PolicyViolation)
  /\ admitPod upstream priorityOnly (snapshotPlugin noDefaultIndex)
              (createPod "default" (plainPod "plain" (Some 100)))
     = (PodObject (plainPod "plain" (Some 100)), None).
Proof.
  split.
  - destruct (carried_priority_must_match
                upstream priorityOnly (snapshotPlugin noDefaultIndex)
                (createPod "default" (plainPod "plain" (Some 7)))
                (plainPod "plain" (Some 7)) (plainPod "plain" (Some 7))
                7 100 eq_refl eq_refl eq_refl eq_refl) as [Hdiffer _].
    destruct Hdiffer as (e & Hadmit & Hkind & _); [discriminate|].
    exists e. split; assumption.
  - destruct (carried_priority_must_match
                upstream priorityOnly (snapshotPlugin noDefaultIndex)
                (createPod "default" (plainPod "plain" (Some 100)))
                (plainPod "plain" (Some 100)) (plainPod "plain" (Some 100))
                100 100 eq_refl eq_refl eq_refl eq_refl) as [_ Hsame].
    destruct (Hsame eq_refl) as (pod'' & Hadmit & _ & Hpod).
    rewrite Hadmit, Hpod. reflexivity.
Defined.

(** A class that is not listed is a policy violation; an index that cannot
    be read is a transient failure, for a lookup and for a listing. *)
Lemma index_failures_by_kind_witness :
  (exists e,
      admitPod upstream priorityOnly (snapshotPlugin noDefaultIndex)
               (createPod "default" (plainPod "missing" None))
      = (PodObject (plainPod "missing" None), Some e)
      /\ kindOf e = Some PolicyViolation)
  /\ (exists e,
         admitPod upstream priorityOnly brokenPlugin
                  (createPod "default" (plainPod "plain" None))
         = (PodObject (plainPod "plain" None), Some e)
         /\ kindOf e = Some Transient)
  /\ (exists e,
         admitPod upstream priorityOnly brokenPlugin
                  (createPod "default" (plainPod "" None))
         = (PodObject (plainPod "" None), Some e)
         /\ kindOf e = Some Transient).
Proof.
  split; [|split].
  - destruct (index_failures_by_kind
                upstream priorityOnly (snapshotPlugin noDefaultIndex)
                (createPod "default" (plainPod "missing" None))
                (plainPod "missing" None)
                (StatusError StatusReasonNotFound
                             "priorityclass missing not found")
                eq_refl eq_refl) as [Hlookup _].
    destruct Hlookup as (e & Hadmit & Hmiss & _);
      [discriminate | reflexivity | reflexivity |].
    exists e. split; [exact Hadmit | apply Hmiss; reflexivity].
  - destruct (index_failures_by_kind
                upstream priorityOnly brokenPlugin
                (createPod "default" (plainPod "plain" None))
                (plainPod "plain" None) (errorString "index unavailable")
                eq_refl eq_refl) as [Hlookup _].
    destruct Hlookup as (e & Hadmit & _ & Hother);
      [discriminate | reflexivity | reflexivity |].
    exists e. split; [exact Hadmit | apply Hother; reflexivity].
  - destruct (index_failures_by_kind
                upstream priorityOnly brokenPlugin
                (createPod "default" (plainPod "" None))
                (plainPod "" None) (errorString "index unavailable")
                eq_refl eq_refl) as [_ Hlist].
    destruct Hlist as (e & Hadmit & Hkind & _);
      [reflexivity | reflexivity | reflexivity |].
    exists e. split; assumption.
Defined.

(** A Create that succeeds leaves a priority, through [Admit] as well; an
    Update whose old pod had priority 7 does not end with an empty
    priority. *)
Lemma priority_populated_and_kept_witness :
  (exists pod',
      PodObject (plainPod "plain" (Some 100)) = PodObject pod'
      /\ exists v, Priority (Spec pod') = Some v)
  /\ (exists pod',
         PodObject (plainPod "" (Some 7)) = PodObject pod'
         /\ exists w, Priority (Spec pod') = Some w).
Proof.
  split.
  - destruct (priority_populated_and_kept
                upstream priorityOnly (snapshotPlugin noDefaultIndex)
                (createPod "default" (plainPod "plain" None))
                (plainPod "plain" None)
                (PodObject (plainPod "plain" (Some 100))) None
                eq_refl) as [_ Hadmit].
    destruct (Hadmit eq_refl eq_refl eq_refl eq_refl)
      as (pod' & Hobj & Hcreate & _).
    exists pod'. split; [exact Hobj | apply Hcreate; reflexivity].
  - destruct (priority_populated_and_kept
                upstream priorityOnly (snapshotPlugin noDefaultIndex)
                (updatePod (plainPod "" None) (plainPod "" (Some 7)))
                (plainPod "" None)
                (PodObject (plainPod "" (Some 7))) None
                eq_refl) as [HadmitPod _].
    destruct (HadmitPod eq_refl) as (pod' & Hobj & _ & Hupdate).
    exists pod'. split; [exact Hobj|].
    destruct (Hupdate eq_refl) as [_ Hold].
    apply (Hold (plainPod "" (Some 7)) 7); reflexivity.
Defined.

(** Old priority 7, new priority unset: the new pod ends with 7 and is
    otherwise as it came. *)
Lemma update_touches_priority_only_witness :
  exists pod',
    admitPod upstream priorityOnly (snapshotPlugin noDefaultIndex)
             (updatePod (plainPod "gold" None) (plainPod "gold" (Some 7)))
    = (PodObject pod', None)
    /\ Priority (Spec pod') = Some 7
    /\ PriorityClassName (Spec pod') = "gold".
Proof.
  destruct (update_touches_priority_only
              upstream priorityOnly (snapshotPlugin noDefaultIndex)
              (updatePod (plainPod "gold" None) (plainPod "gold" (Some 7)))
              (plainPod "gold" None) (plainPod "gold" (Some 7))
              eq_refl eq_refl eq_refl)
    as (pod' & Hadmit & Hcopy & _ & (_ & _ & _ & Hclass & _) & _).
  exists pod'. split; [exact Hadmit|].
  split; [apply Hcopy; reflexivity | exact Hclass].
Defined.

(** One default is listed: creating another default is refused; with none
    listed it is accepted; a class that is no default passes even when the
    index cannot be read. *)
Lemma create_default_only_without_default_witness :
  (exists e,
      validatePriorityClass (snapshotPlugin oneDefaultIndex)
                            (classRequest Create bronze) = Some e
      /\ kindOf e = Some PolicyViolation)
  /\ validatePriorityClass (snapshotPlugin noDefaultIndex)
                           (classRequest Create bronze) = None
  /\ validatePriorityClass brokenPlugin
       (classRequest Create (mkPriorityClass "plain" 100 false)) = None.
Proof.
  split; [|split].
  - destruct (create_default_only_without_default
                (snapshotPlugin oneDefaultIndex) (classRequest Create bronze)
                bronze eq_refl) as [_ Hcreate].
    destruct (Hcreate eq_refl eq_refl oneDefaultIndex eq_refl) as [Hsome _].
    apply Hsome. exists gold. split; [simpl; auto | reflexivity].
  - destruct (create_default_only_without_default
                (snapshotPlugin noDefaultIndex) (classRequest Create bronze)
                bronze eq_refl) as [_ Hcreate].
    destruct (Hcreate eq_refl eq_refl noDefaultIndex eq_refl) as [_ Hnone].
    apply Hnone. intros q [<-|[<-|[]]]; reflexivity.
  - destruct (create_default_only_without_default
                brokenPlugin
                (classRequest Create (mkPriorityClass "plain" 100 false))
                (mkPriorityClass "plain" 100 false) eq_refl) as [Hplain _].
    apply Hplain. reflexivity.
Defined.

(** The validator answers alike with all gates on and all gates off; with
    all gates off the resolver hands the pod back as it came. *)
Lemma validate_not_gated_witness :
  Validate upstream allEnabled (snapshotPlugin oneDefaultIndex)
           (classRequest Create bronze)
  = Validate upstream allDisabled (snapshotPlugin oneDefaultIndex)
             (classRequest Create bronze)
  /\ Admit upstream allDisabled (snapshotPlugin oneDefaultIndex)
           (createPod "default" (plainPod "" None))
     = (PodObject (plainPod "" None), None).
Proof.
  split.
  - apply (proj1 (validate_not_gated
                    upstream allEnabled allDisabled
                    (snapshotPlugin oneDefaultIndex)
                    (classRequest Create bronze))).
  - apply (proj2 (validate_not_gated
                    upstream allDisabled allEnabled
                    (snapshotPlugin oneDefaultIndex)
                    (createPod "default" (plainPod "" None)))).
    reflexivity.
Defined.

(** *** Running the plugin *)

Example validate_rejects_second_default :
  exists e, Validate upstream allDisabled (snapshotPlugin oneDefaultIndex)
                     (classRequest Create bronze) = Some e
            /\ IsForbidden e = true.
Proof. eexists. split; reflexivity. Qed.

Example admit_is_gated :
  Admit upstream priorityOnly (snapshotPlugin oneDefaultIndex)
        (createPod "default" (plainPod "" None))
  = (PodObject (plainPod "gold" (Some 10)), None).
Proof. reflexivity. Qed.

Example raced_defaults_either_order :
  getDefaultPriority upstream (snapshotPlugin [gold; bronze]) = Ok ("bronze", 5)
  /\ getDefaultPriority upstream (snapshotPlugin [bronze; gold])
     = Ok ("bronze", 5).
Proof. split; reflexivity. Qed.

Example reserved_class_outside_system_namespace :
  exists e,
    admitPod upstream priorityOnly (snapshotPlugin noDefaultIndex)
             (createPod "default" (plainPod "system-cluster-critical" None))
    = (PodObject (plainPod "system-cluster-critical" None), Some e)
    /\ IsForbidden e = true.
Proof. eexists. split; reflexivity. Qed.

Example reserved_class_inside_system_namespace :
  admitPod upstream priorityOnly (snapshotPlugin noDefaultIndex)
           (createPod "kube-system" (plainPod "system-cluster-critical" None))
  = (PodObject (plainPod "system-cluster-critical" (Some 2000000000)), None).
Proof. reflexivity. Qed.

Example legacy_annotation_inference :
  admitPod upstream allEnabled (snapshotPlugin noDefaultIndex)
           (createPod "kube-system"
              (mkPod "dns" "kube-system" [(CriticalPodAnnotationKey, "")]
                     (mkPodSpec "" None "")))
  = (PodObject (mkPod "dns" "kube-system" [(CriticalPodAnnotationKey, "")]
                  (mkPodSpec "system-cluster-critical" (Some 2000000000) "")),
     None).
Proof. reflexivity. Qed.

Example mismatch_message :
  admitPod upstream priorityOnly (snapshotPlugin noDefaultIndex)
           (createPod "default" (plainPod "plain" (Some 7)))
  = (PodObject (plainPod "plain" (Some 7)),
     Some (StatusError StatusReasonForbidden
       "pods web-0 is forbidden: the integer value of priority (7) must not be provided in pod spec; priority admission controller computed 100 from the given PriorityClass name")).
Proof. reflexivity. Qed.

Example fallback_constant_in_range :
  int32 (DefaultPriorityWhenNoDefaultClassExists upstream) = 0.
Proof. reflexivity. Qed.

(** ** Further properties of the plugin *)

(** *** The selection of the default class *)

(** Where the selected class stands in the list: ahead of it every default
    has a strictly higher value, behind it none has a lower one. *)
Lemma defaultLoop_first_lowest (l : list PriorityClass) :
  match fold_left defaultStep l None with
  | None => forall q, In q l -> GlobalDefault q = false
  | Some d =>
      exists l1 l2,
        l = (l1 ++ d :: l2)%list /\ GlobalDefault d = true
        /\ (forall q, In q l1 -> GlobalDefault q = true -> Value d < Value q)
        /\ (forall q, In q l2 -> GlobalDefault q = true -> Value d <= Value q)
  end.
Proof.
  induction l as [|x l IH] using rev_ind; simpl.
  - intros q [].
  - rewrite fold_left_app. simpl.
    destruct (fold_left defaultStep l None) as [d|]; unfold defaultStep;
      destruct (GlobalDefault x) eqn:Hx.
    + destruct IH as (l1 & l2 & Hl & Hd & Hbefore & Hafter).
      destruct (Z.gtb_spec (Value d) (Value x)) as [Hgt|Hle].
      * exists l, []. split; [reflexivity|]. split; [exact Hx|].
        split; [|intros q []].
        intros q Hq Hq'. rewrite Hl in Hq. apply in_app_or in Hq.
        destruct Hq as [Hq|[<-|Hq]].
        -- specialize (Hbefore q Hq Hq'). lia.
        -- exact Hgt.
        -- specialize (Hafter q Hq Hq'). lia.
      * exists l1, (l2 ++ [x])%list. split.
        -- rewrite Hl, <- app_assoc. reflexivity.
        -- split; [exact Hd|]. split; [exact Hbefore|].
           intros q Hq Hq'. apply in_app_or in Hq.
           destruct Hq as [Hq|[<-|[]]]; [auto | exact Hle].
    + destruct IH as (l1 & l2 & Hl & Hd & Hbefore & Hafter).
      exists l1, (l2 ++ [x])%list. split.
      * rewrite Hl, <- app_assoc. reflexivity.
      * split; [exact Hd|]. split; [exact Hbefore|].
        intros q Hq Hq'. apply in_app_or in Hq.
        destruct Hq as [Hq|[<-|[]]]; [auto | congruence].
    + exists l, []. split; [reflexivity|]. split; [exact Hx|].
      split; [|intros q []].
      intros q Hq Hq'. rewrite (IH q Hq) in Hq'. discriminate.
    + intros q Hq. apply in_app_or in Hq.
      destruct Hq as [Hq|[<-|[]]]; auto.
Qed.

(** X1. [getDefaultPriorityClass] returns nil, and no error, exactly when the
    listed classes hold no class with [GlobalDefault] set. *)
Theorem no_default_selected_iff_none_listed (p : priorityPlugin)
        (l : list PriorityClass) :
  List (lister p) = Ok l ->
  (getDefaultPriorityClass p = Ok None
   <-> forall q, In q l -> GlobalDefault q = false).
Proof.
  intros Hlist. unfold getDefaultPriorityClass. rewrite Hlist.
  split.
  - intros Hnone q Hq. pose proof (defaultLoop_first_lowest l) as Hloop.
    destruct (fold_left defaultStep l None); [discriminate | auto].
  - intros Hall. rewrite (defaultLoop_none l Hall). reflexivity.
Qed.

(** X2. When several listed defaults share the lowest value,
    [getDefaultPriorityClass] returns the one listed first: every default
    listed before the returned class has a strictly higher value, and every
    default listed after it has a value at least as high. *)
Theorem selected_default_is_first_lowest (p : priorityPlugin)
        (l : list PriorityClass) (c : PriorityClass) :
  List (lister p) = Ok l -> In c l -> GlobalDefault c = true ->
  exists d l1 l2,
    getDefaultPriorityClass p = Ok (Some d)
    /\ l = (l1 ++ d :: l2)%list /\ GlobalDefault d = true
    /\ (forall q, In q l1 -> GlobalDefault q = true -> Value d < Value q)
    /\ (forall q, In q l2 -> GlobalDefault q = true -> Value d <= Value q).
Proof.
  intros Hlist Hin Hc. unfold getDefaultPriorityClass. rewrite Hlist.
  pose proof (defaultLoop_first_lowest l) as Hloop.
  destruct (fold_left defaultStep l None) as [d|].
  - destruct Hloop as (l1 & l2 & Hrest). exists d, l1, l2.
    split; [reflexivity | exact Hrest].
  - rewrite (Hloop c Hin) in Hc. discriminate.
Qed.

(** X3. The default priority value does not depend on the order in which the
    index lists the classes: two listings that are permutations of each other
    give the same value (the class name may differ when defaults tie). *)
Theorem default_value_independent_of_order (K : Imports)
        (p p' : priorityPlugin) (l l' : list PriorityClass) :
  List (lister p) = Ok l -> List (lister p') = Ok l' -> Permutation l l' ->
  exists name name' v,
    getDefaultPriority K p = Ok (name, v)
    /\ getDefaultPriority K p' = Ok (name', v).
Proof.
  intros Hlist Hlist' Hperm.
  unfold getDefaultPriority, getDefaultPriorityClass.
  rewrite Hlist, Hlist'.
  pose proof (defaultLoop_spec l None) as H.
  pose proof (defaultLoop_spec l' None) as H'.
  destruct (fold_left defaultStep l None) as [d|];
    destruct (fold_left defaultStep l' None) as [d'|].
  - destruct H as ([Hd|[Hin Hd]] & Hmin & _); [discriminate|].
    destruct H' as ([Hd'|[Hin' Hd']] & Hmin' & _); [discriminate|].
    assert (Hle : Value d <= Value d')
      by (apply Hmin; [apply (Permutation_in _ (Permutation_sym Hperm) Hin')
                      | exact Hd']).
    assert (Hge : Value d' <= Value d)
      by (apply Hmin'; [apply (Permutation_in _ Hperm Hin) | exact Hd]).
    assert (Heq : Value d' = Value d) by lia.
    exists (Name d), (Name d'), (Value d). rewrite Heq. split; reflexivity.
  - destruct H as ([Hd|[Hin Hd]] & _); [discriminate|].
    destruct H' as (_ & Hall').
    rewrite (Hall' d (Permutation_in _ Hperm Hin)) in Hd. discriminate.
  - destruct H' as ([Hd'|[Hin' Hd']] & _); [discriminate|].
    destruct H as (_ & Hall).
    rewrite (Hall d' (Permutation_in _ (Permutation_sym Hperm) Hin')) in Hd'.
    discriminate.
  - exists "", "", (int32 (DefaultPriorityWhenNoDefaultClassExists K)).
    split; reflexivity.
Qed.

(** *** Errors of the validator and of malformed requests *)

(** X4. When listing the index fails, [validatePriorityClass] of a class with
    [GlobalDefault] set fails with a plain error that quotes the listing
    error and is not a Forbidden status, whatever the operation. *)
Theorem validate_list_failure_is_transient (p : priorityPlugin)
        (a : Attributes) (pc : PriorityClass) (err : error) :
  GetObject a = PriorityClassObject pc -> GlobalDefault pc = true ->
  List (lister p) = Err err ->
  validatePriorityClass p a
  = Some (errorString ("failed to get default priority class: " ++ Error err))
  /\ forall e, validatePriorityClass p a = Some e ->
               kindOf e = Some Transient /\ IsForbidden e = false.
Proof.
  intros Hobj Hdef Hlist.
  assert (Hv : validatePriorityClass p a
               = Some (errorString
                         ("failed to get default priority class: "
                            ++ Error err))).
  { unfold validatePriorityClass, getDefaultPriorityClass.
    rewrite Hobj, Hdef, Hlist. reflexivity. }
  split; [exact Hv|].
  intros e He. rewrite Hv in He. injection He as <-. split; reflexivity.
Qed.

(** X5. [admitPod] on an object that is not a pod fails with a BadRequest
    error and returns the object as it came, for every operation; so does an
    Update whose old object is not a pod, even when the new pod lacks a
    priority. *)
Theorem admitPod_malformed_input (K : Imports) (fg : FeatureGate)
        (p : priorityPlugin) (a : Attributes) :
  ((forall pod, GetObject a <> PodObject pod) \/
   (GetOperation a = Update /\ forall old, GetOldObject a <> PodObject old)) ->
  admitPod K fg p a = (GetObject a, Some (NewBadRequest msgNotPod))
  /\ kindOf (NewBadRequest msgNotPod) = Some MalformedInput.
Proof.
  intros H. split; [|reflexivity].
  unfold admitPod. destruct H as [Hnot|[Hop Hold]].
  - destruct (GetObject a) as [pod| | |]; try reflexivity.
    exfalso. apply (Hnot pod). reflexivity.
  - rewrite Hop.
    destruct (GetObject a) as [pod| | |]; try reflexivity.
    destruct (GetOldObject a) as [old| | |]; try reflexivity.
    exfalso. apply (Hold old). reflexivity.
Qed.

(** X6. [validatePriorityClass] on an object that is not a priority class
    fails with a BadRequest error without reading the index, for every
    operation. *)
Theorem validate_malformed_input (p : priorityPlugin) (a : Attributes) :
  (forall pc, GetObject a <> PriorityClassObject pc) ->
  exists e, validatePriorityClass p a = Some e
            /\ kindOf e = Some MalformedInput
            /\ forall p', validatePriorityClass p' a = Some e.
Proof.
  intros Hnot. unfold validatePriorityClass.
  destruct (GetObject a) as [pod|pc|k|];
    try (eexists; split; [reflexivity|]; split; reflexivity).
  exfalso. apply (Hnot pc). reflexivity.
Qed.

(** *** Dispatch *)

Lemma GroupResource_eqb_eq (x y : GroupResource) :
  GroupResource_eqb x y = true <-> x = y.
Proof.
  unfold GroupResource_eqb. destruct x as [g r], y as [g' r']. simpl.
  rewrite andb_true_iff, !String.eqb_eq.
  split; [intros [-> ->]; reflexivity | intros [= -> ->]; auto].
Qed.

Lemma resources_differ (K : Imports) :
  GroupResource_eqb (podResource K) (priorityClassResource K) = false
  /\ GroupResource_eqb (priorityClassResource K) (podResource K) = false.
Proof.
  unfold GroupResource_eqb, podResource, priorityClassResource. simpl.
  rewrite !andb_false_r. split; reflexivity.
Qed.

(** X7. [Admit] hands the object back as it came, with no error and without
    reading the index, for every request on a subresource, on a resource
    other than pods, or with an operation other than Create and Update. *)
Theorem Admit_passes_through (K : Imports) (fg : FeatureGate)
        (p : priorityPlugin) (a : Attributes) :
  GetSubresource a <> "" \/ GetResource a <> podResource K
  \/ GetOperation a = Delete \/ GetOperation a = Connect ->
  Admit K fg p a = (GetObject a, None).
Proof.
  intros H. unfold Admit.
  destruct (Enabled fg PodPriority); [|reflexivity]. simpl.
  destruct (String.length (GetSubresource a) =? 0)%nat eqn:Hsub;
    [|reflexivity].
  simpl.
  destruct (GroupResource_eqb (GetResource a) (podResource K)) eqn:Hres;
    [|reflexivity].
  destruct H as [H|[H|[H|H]]].
  - apply length_zero_empty in Hsub. contradiction.
  - apply GroupResource_eqb_eq in Hres. contradiction.
  - rewrite H. reflexivity.
  - rewrite H. reflexivity.
Qed.

(** X8. [Validate] accepts, without reading the index or the object, every
    request on a subresource, on a resource other than priority classes, or
    with an operation other than Create and Update. *)
Theorem Validate_passes_through (K : Imports) (fg : FeatureGate)
        (p : priorityPlugin) (a : Attributes) :
  GetSubresource a <> "" \/ GetResource a <> priorityClassResource K
  \/ GetOperation a = Delete \/ GetOperation a = Connect ->
  Validate K fg p a = None.
Proof.
  intros H. unfold Validate.
  destruct (String.length (GetSubresource a) =? 0)%nat eqn:Hsub;
    [|reflexivity].
  simpl.
  destruct (GroupResource_eqb (GetResource a) (priorityClassResource K))
           eqn:Hres; [|reflexivity].
  destruct H as [H|[H|[H|H]]].
  - apply length_zero_empty in Hsub. contradiction.
  - apply GroupResource_eqb_eq in Hres. contradiction.
  - rewrite H. reflexivity.
  - rewrite H. reflexivity.
Qed.

(** X9. The two passes are disjoint, whatever the group names are: a request
    on the pod resource is never rejected by [Validate], and a request on the
    priority-class resource is never changed or rejected by [Admit]. *)
Theorem passes_are_disjoint (K : Imports) (fg : FeatureGate)
        (p : priorityPlugin) (a : Attributes) :
  (GetResource a = podResource K -> Validate K fg p a = None)
  /\ (GetResource a = priorityClassResource K ->
      Admit K fg p a = (GetObject a, None)).
Proof.
  destruct (resources_differ K) as [Hpc Hpod]. split; intros Hres.
  - unfold Validate. rewrite Hres, Hpc.
    destruct (negb _); reflexivity.
  - unfold Admit. rewrite Hres, Hpod.
    destruct (negb (Enabled fg PodPriority)); [reflexivity|].
    destruct (negb _); reflexivity.
Qed.

(** *** Resolution of a named class *)

Lemma permitted_in_system_namespace (K : Imports) (name : string) :
  priorityClassPermittedInNamespace K name (NamespaceSystem K) = true.
Proof.
  unfold priorityClassPermittedInNamespace.
  destruct (permittedLoop K (SystemPriorityClasses K) name (NamespaceSystem K))
           eqn:Hloop; [reflexivity|].
  apply permittedLoop_false in Hloop. destruct Hloop as [_ Hns].
  contradiction.
Qed.

(** A class name given by the caller is never rewritten by the resolution
    step. *)
Lemma resolve_explicit_keeps_pod (K : Imports) (fg : FeatureGate)
      (p : priorityPlugin) (a : Attributes) (pod : Pod) :
  PriorityClassName (Spec pod) <> "" ->
  fst (admitPod_resolve K fg p a pod) = pod.
Proof.
  intros Hname. rewrite (resolve_explicit K fg p a pod Hname). cbv zeta.
  destruct (negb _); [reflexivity|].
  destruct (Get _ _) as [pc|err]; [reflexivity|].
  destruct (IsNotFound err); reflexivity.
Qed.

(** X10. On a Create of a pod that names a class which the namespace policy
    permits and the index holds, a pod without priority, or one that carries
    exactly the value of that class, is admitted with the value of the class
    as its priority; nothing else of the pod changes. *)
Theorem named_class_gives_its_value (K : Imports) (fg : FeatureGate)
        (p : priorityPlugin) (a : Attributes) (pod : Pod)
        (pc : PriorityClass) :
  GetOperation a = Create -> GetObject a = PodObject pod ->
  PriorityClassName (Spec pod) <> "" ->
  priorityClassPermittedInNamespace K (PriorityClassName (Spec pod))
                                    (GetNamespace a) = true ->
  Get (lister p) (PriorityClassName (Spec pod)) = Ok pc ->
  Priority (Spec pod) = None \/ Priority (Spec pod) = Some (Value pc) ->
  admitPod K fg p a = (PodObject (setPriority pod (Some (Value pc))), None).
Proof.
  intros Hop Hobj Hname Hperm Hget Hprio.
  rewrite (admitPod_create K fg p a pod Hop Hobj).
  rewrite (resolve_named_class K fg p a pod pc Hname Hperm Hget).
  destruct Hprio as [-> | ->]; [reflexivity|].
  rewrite Z.eqb_refl. reflexivity.
Qed.

(** X11. On a Create of a pod that names a reserved system class: outside the
    system namespace the admission fails with a Forbidden error before the
    index is read, whatever the index, the feature gates and the priority the
    pod carries, and the pod is not changed; in the system namespace the class
    is looked up like any other and the pod gets its value. *)
Theorem reserved_class_only_in_system_namespace (K : Imports)
        (fg : FeatureGate) (p : priorityPlugin) (a : Attributes) (pod : Pod) :
  GetOperation a = Create -> GetObject a = PodObject pod ->
  PriorityClassName (Spec pod) <> "" ->
  In (PriorityClassName (Spec pod)) (reservedNames K) ->
  (GetNamespace a <> NamespaceSystem K ->
   exists e, kindOf e = Some PolicyViolation
             /\ forall fg' p', admitPod K fg' p' a = (PodObject pod, Some e))
  /\ (GetNamespace a = NamespaceSystem K ->
      forall pc, Get (lister p) (PriorityClassName (Spec pod)) = Ok pc ->
                 Priority (Spec pod) = None ->
                 admitPod K fg p a
                 = (PodObject (setPriority pod (Some (Value pc))), None)).
Proof.
  intros Hop Hobj Hname Hres. split.
  - intros Hns.
    assert (Hperm : priorityClassPermittedInNamespace
                      K (PriorityClassName (Spec pod)) (GetNamespace a)
                    = false).
    { unfold priorityClassPermittedInNamespace.
      apply permittedLoop_false. split; [exact Hres | exact Hns]. }
    eexists. split; [|intros fg' p'].
    2:{ rewrite (admitPod_create K fg' p' a pod Hop Hobj).
        rewrite (resolve_explicit K fg' p' a pod Hname). cbv zeta.
        rewrite Hperm. simpl. reflexivity. }
    reflexivity.
  - intros Hns pc Hget Hprio.
    rewrite (admitPod_create K fg p a pod Hop Hobj).
    rewrite (resolve_named_class K fg p a pod pc Hname); auto.
    + rewrite Hprio. reflexivity.
    + rewrite Hns. apply permitted_in_system_namespace.
Qed.

(** X12. The legacy inference is the same as naming the class: a Create of a
    pod without class name to which the inference applies is handled exactly
    like the Create of that pod with [scheduling.SystemClusterCritical] as its
    class name, with the same resulting object and the same error. *)
Theorem legacy_inference_names_the_class (K : Imports) (fg : FeatureGate)
        (p : priorityPlugin) (a : Attributes) (pod : Pod) :
  GetOperation a = Create -> GetObject a = PodObject pod ->
  PriorityClassName (Spec pod) = "" -> legacyFires K fg a pod = true ->
  admitPod K fg p a
  = admitPod K fg p
      (withObject a (PodObject (setPriorityClassName
                                  pod (SystemClusterCritical K)))).
Proof.
  intros Hop Hobj Hname Hfire.
  rewrite (admitPod_create K fg p a pod Hop Hobj).
  rewrite (admitPod_create K fg p (withObject a _)
             (setPriorityClassName pod (SystemClusterCritical K)) Hop eq_refl).
  assert (Hres : admitPod_resolve K fg p a pod
                 = admitPod_resolve K fg p
                     (withObject a (PodObject (setPriorityClassName
                                       pod (SystemClusterCritical K))))
                     (setPriorityClassName pod (SystemClusterCritical K))).
  { unfold admitPod_resolve, legacyFires in *. rewrite Hname.
    simpl.
    destruct (String.length (SystemClusterCritical K) =? 0)%nat eqn:Hscc;
      simpl; rewrite ?Hfire; simpl; rewrite ?Hscc; reflexivity. }
  rewrite <- Hres. reflexivity.
Qed.

(** X13. A Create writes at most the class name and the priority of the pod:
    whatever [admitPod] returns, the name, the namespace, the annotations and
    the node name of the pod are as before, a class name given by the caller
    is kept, a priority the pod carried is kept, and when an error is
    returned the priority is as it was. *)
Theorem create_writes_class_and_priority_only (K : Imports)
        (fg : FeatureGate) (p : priorityPlugin) (a : Attributes) (pod : Pod)
        (o' : Object) (e : option error) :
  GetOperation a = Create -> GetObject a = PodObject pod ->
  admitPod K fg p a = (o', e) ->
  exists pod',
    o' = PodObject pod'
    /\ podName pod' = podName pod /\ podNamespace pod' = podNamespace pod
    /\ Annotations pod' = Annotations pod
    /\ NodeName (Spec pod') = NodeName (Spec pod)
    /\ (PriorityClassName (Spec pod) <> "" ->
        PriorityClassName (Spec pod') = PriorityClassName (Spec pod))
    /\ (forall v, Priority (Spec pod) = Some v ->
                  Priority (Spec pod') = Some v)
    /\ (e <> None -> Priority (Spec pod') = Priority (Spec pod)).
Proof.
  intros Hop Hobj Hrun.
  rewrite (admitPod_create K fg p a pod Hop Hobj) in Hrun.
  pose proof (resolve_explicit_keeps_pod K fg p a pod) as Hkeep.
  destruct (admitPod_resolve K fg p a pod) as [q r] eqn:Hres.
  destruct (resolve_frame K fg p a pod q r Hres) as [m Hq].
  simpl in Hkeep.
  assert (Hclass : PriorityClassName (Spec pod) <> "" ->
                   PriorityClassName (Spec q) = PriorityClassName (Spec pod))
    by (intros Hname; rewrite (Hkeep Hname); reflexivity).
  clear Hkeep Hres. subst q.
  destruct r as [v|err].
  - simpl in Hrun. destruct (Priority (Spec pod)) as [given|] eqn:Hprio.
    + destruct (Z.eqb_spec given v) as [->|Hne]; simpl in Hrun;
        inversion Hrun; subst; eexists; (split; [reflexivity|]); simpl;
        rewrite ?Hprio; repeat split; auto; try congruence.
    + inversion Hrun; subst. eexists. split; [reflexivity|]. simpl.
      rewrite ?Hprio. repeat split; auto; congruence.
  - inversion Hrun; subst. eexists. split; [reflexivity|]. simpl.
    repeat split; auto.
Qed.

(** *** What a successful Create rests on *)

(** The two ways a Create succeeds: through the lookup of a named class (the
    caller's, or the one the legacy inference put), or through the default
    resolution. *)
Lemma create_success_cases (K : Imports) (fg : FeatureGate)
      (p : priorityPlugin) (a : Attributes) (pod pod' : Pod) :
  GetOperation a = Create -> GetObject a = PodObject pod ->
  admitPod K fg p a = (PodObject pod', None) ->
  exists m v,
    pod' = setPriority (setPriorityClassName pod m) (Some v)
    /\ ((m <> ""
         /\ priorityClassPermittedInNamespace K m (GetNamespace a) = true
         /\ (exists pc, Get (lister p) m = Ok pc /\ v = Value pc)
         /\ (PriorityClassName (Spec pod) <> "" ->
             m = PriorityClassName (Spec pod)))
        \/ (PriorityClassName (Spec pod) = ""
            /\ getDefaultPriority K p = Ok (m, v)
            /\ (legacyFires K fg a pod = true ->
                SystemClusterCritical K = ""))).
Proof.
  intros Hop Hobj Hrun.
  rewrite (admitPod_create K fg p a pod Hop Hobj) in Hrun.
  assert (Hcases :
    exists m v,
      admitPod_resolve K fg p a pod = (setPriorityClassName pod m, Ok v)
      /\ ((m <> ""
           /\ priorityClassPermittedInNamespace K m (GetNamespace a) = true
           /\ (exists pc, Get (lister p) m = Ok pc /\ v = Value pc)
           /\ (PriorityClassName (Spec pod) <> "" ->
               m = PriorityClassName (Spec pod)))
          \/ (PriorityClassName (Spec pod) = ""
              /\ getDefaultPriority K p = Ok (m, v)
              /\ (legacyFires K fg a pod = true ->
                  SystemClusterCritical K = "")))).
  { destruct (admitPod_resolve K fg p a pod) as [q [v|err]] eqn:Hres;
      [clear Hrun | destruct (Priority (Spec q)); discriminate].
    destruct pod as [n ns ann [cn pr nn]].
    unfold admitPod_resolve, legacyFires in *. simpl in *.
    destruct cn as [|c cn]; simpl in Hres.
    - (* no class name given *)
      destruct (Enabled fg ExperimentalCriticalPodAnnotation
                && IsCritical K (GetNamespace a) ann) eqn:Hfire;
        simpl in Hres.
      + destruct (SystemClusterCritical K) as [|c s] eqn:Hscc; simpl in Hres.
        * destruct (getDefaultPriority K p) as [[m v0]|err] eqn:Hgd;
            inversion Hres; subst.
          exists m, v. split; [reflexivity|]. right. auto.
        * destruct (negb (priorityClassPermittedInNamespace
                            K (String c s) (GetNamespace a))) eqn:Hperm;
            [discriminate|].
          apply negb_false_iff in Hperm.
          destruct (Get (lister p) (String c s)) as [pc|err] eqn:Hget;
            [|destruct (IsNotFound err); discriminate].
          inversion Hres; subst.
          exists (String c s), (Value pc). split; [reflexivity|]. left.
          split; [discriminate|]. split; [exact Hperm|].
          split; [eauto | intros H; contradiction].
      + destruct (getDefaultPriority K p) as [[m v0]|err] eqn:Hgd;
          inversion Hres; subst.
        exists m, v. split; [reflexivity|]. right.
        split; [reflexivity|]. split; [reflexivity | discriminate].
    - (* a class name given *)
      destruct (negb (priorityClassPermittedInNamespace
                        K (String c cn) (GetNamespace a))) eqn:Hperm;
        [discriminate|].
      apply negb_false_iff in Hperm.
      destruct (Get (lister p) (String c cn)) as [pc|err] eqn:Hget;
        [|destruct (IsNotFound err); discriminate].
      inversion Hres; subst.
      exists (String c cn), (Value pc). split; [reflexivity|]. left.
      split; [discriminate|]. split; [exact Hperm|].
      split; [eauto | reflexivity]. }
  destruct Hcases as (m & v & Hres & Hcase).
  rewrite Hres in Hrun. exists m, v. split; [|exact Hcase].
  destruct (Priority (Spec (setPriorityClassName pod m))) as [given|].
  - destruct (negb (given =? v)); [discriminate|].
    inversion Hrun. reflexivity.
  - inversion Hrun. reflexivity.
Qed.

(** X14. Every pod a Create admits carries a priority the index accounts
    for: either the pod names a class that the namespace policy permits and
    the index holds, and its priority is the value of that class; or the pod
    came without class name and its class name and priority are those of the
    default resolution.  A pod that came with a class name is always of the
    first kind, with that same class name. *)
Theorem admitted_priority_is_accounted_for (K : Imports) (fg : FeatureGate)
        (p : priorityPlugin) (a : Attributes) (pod pod' : Pod) :
  GetOperation a = Create -> GetObject a = PodObject pod ->
  admitPod K fg p a = (PodObject pod', None) ->
  (classJustifies K p a pod'
   \/ (PriorityClassName (Spec pod) = "" /\ defaultJustifies K p pod'))
  /\ (PriorityClassName (Spec pod) <> "" ->
      classJustifies K p a pod'
      /\ PriorityClassName (Spec pod') = PriorityClassName (Spec pod)).
Proof.
  intros Hop Hobj Hrun.
  destruct (create_success_cases K fg p a pod pod' Hop Hobj Hrun)
    as (m & v & -> & Hcase).
  unfold classJustifies, defaultJustifies. simpl.
  destruct Hcase as [(Hm & Hperm & (pc & Hget & ->) & Hkeep)
                    |(Hname & Hgd & _)].
  - split.
    + left. split; [exact Hperm | eauto].
    + intros Hname. split; [|exact (Hkeep Hname)].
      split; [exact Hperm | eauto].
  - split.
    + right. split; [exact Hname | eauto].
    + intros Hne. contradiction.
Qed.

(** X15. Admission of a Create can be repeated: when [admitPod] admitted a
    pod and the resulting pod is presented again in the same request, against
    the same index, it is admitted again and returned as it is.  This holds
    for every pod that came with a class name and for every resulting pod
    without class name; for a pod that received the name of the default
    class it holds when the lookup of that name is permitted and gives the
    value the pod now carries. *)
Theorem create_admission_can_be_repeated (K : Imports) (fg : FeatureGate)
        (p : priorityPlugin) (a : Attributes) (pod pod' : Pod) :
  GetOperation a = Create -> GetObject a = PodObject pod ->
  admitPod K fg p a = (PodObject pod', None) ->
  PriorityClassName (Spec pod) <> ""
  \/ PriorityClassName (Spec pod') = ""
  \/ classJustifies K p a pod' ->
  admitPod K fg p (withObject a (PodObject pod')) = (PodObject pod', None).
Proof.
  intros Hop Hobj Hrun Hhyp.
  destruct (create_success_cases K fg p a pod pod' Hop Hobj Hrun)
    as (m & v & -> & Hcase).
  set (pod' := setPriority (setPriorityClassName pod m) (Some v)) in *.
  rewrite (admitPod_create K fg p (withObject a (PodObject pod')) pod'
             Hop eq_refl).
  assert (Hnamed :
            m <> "" ->
            priorityClassPermittedInNamespace K m (GetNamespace a) = true ->
            (exists pc, Get (lister p) m = Ok pc /\ v = Value pc) ->
            admitPod_resolve K fg p (withObject a (PodObject pod')) pod'
            = (pod', Ok v)).
  { intros Hm Hperm (pc & Hget & ->).
    apply (resolve_named_class K fg p (withObject a (PodObject pod')) pod' pc);
      assumption. }
  assert (Hgoal : admitPod_resolve K fg p (withObject a (PodObject pod')) pod'
                  = (pod', Ok v)).
  { destruct Hcase as [(Hm & Hperm & Hget & _)|(Hname & Hgd & Hscc)].
    - apply Hnamed; assumption.
    - destruct m as [|c m'].
      + (* the default resolution left the class name empty *)
        unfold admitPod_resolve, legacyFires in *. subst pod'. simpl.
        destruct (Enabled fg ExperimentalCriticalPodAnnotation
                  && IsCritical K (GetNamespace a) (Annotations pod))
                 eqn:Hfire; simpl.
        * rewrite (Hscc eq_refl). simpl. rewrite Hgd. reflexivity.
        * rewrite Hgd. reflexivity.
      + destruct Hhyp as [Hne|[Hempty|Hjust]].
        * contradiction.
        * subst pod'. simpl in Hempty. discriminate.
        * destruct Hjust as (Hperm & pc & Hget & Hprio).
          subst pod'. simpl in Hperm, Hget, Hprio.
          apply Hnamed; [discriminate | exact Hperm|].
          exists pc. split; [exact Hget | congruence]. }
  rewrite Hgoal. subst pod'. simpl. rewrite Z.eqb_refl. reflexivity.
Qed.

(** *** Initialisation *)

(** X18. The plugin passes [ValidateInitialization] once both setters have
    run, in either order, with a client that is not nil: the two orders give
    the same plugin, whose lister is the informer's and whose handled
    operations are untouched.  A new plugin fails it for want of a client,
    also after the informer factory alone was set; with the client alone it
    fails for want of a lister; and setting a nil client afterwards makes it
    fail again. *)
Theorem initialization_needs_client_and_lister (C : Type)
        (p : Init.priorityPlugin C) (c : C)
        (f : Init.SharedInformerFactory) :
  let ready :=
    Init.SetExternalKubeInformerFactory
      (Init.SetExternalKubeClientSet p (Some c)) f in
  Init.ValidateInitialization ready = None
  /\ Init.SetExternalKubeClientSet
       (Init.SetExternalKubeInformerFactory p f) (Some c) = ready
  /\ Init.lister ready = Some (Init.Lister (Init.PriorityClasses f))
  /\ Init.operations (Init.handler ready)
     = Init.operations (Init.handler p)
  /\ Init.ValidateInitialization (Init.newPlugin C)
     = Some (errorString "Priority requires a client")
  /\ Init.ValidateInitialization
       (Init.SetExternalKubeInformerFactory (Init.newPlugin C) f)
     = Some (errorString "Priority requires a client")
  /\ Init.ValidateInitialization
       (Init.SetExternalKubeClientSet (Init.newPlugin C) (Some c))
     = Some (errorString "Priority requires a lister")
  /\ Init.ValidateInitialization (Init.SetExternalKubeClientSet ready None)
     = Some (errorString "Priority requires a client").
Proof.
  repeat split.
Qed.

(** *** Decorations of a counter's help text *)

Section MetricsFacts.

Variable Version : Type.
Variable Version_String : Version -> string.

Local Abbreviation Opts := (Metrics.CounterOpts Version).
Local Abbreviation decorate := (Metrics.decorate Version Version_String).
Local Abbreviation decorateAll := (fold_left decorate).

Lemma string_append_assoc (x y z : string) :
  ((x ++ y) ++ z = x ++ (y ++ z))%string.
Proof.
  induction x as [|c x IH]; simpl; [reflexivity | rewrite IH; reflexivity].
Qed.

Ltac run_decorate :=
  unfold Metrics.decorate, Metrics.markDeprecated,
    Metrics.annotateStabilityLevel in *; simpl in *.

Lemma decorate_once (o : Opts) (d : Metrics.Decoration) :
  decorate (decorate o d) d = decorate o d.
Proof.
  destruct o as [ns ss n h cl dv [|] [|] sl], d; reflexivity.
Qed.

(** A decoration that is done stays done through the other one. *)
Lemma decorate_done_stable (o : Opts) (d d' : Metrics.Decoration) :
  decorate o d' = o -> decorate (decorate o d) d' = decorate o d.
Proof.
  destruct o as [ns ss n h cl dv [|] [|] sl], d, d';
    run_decorate; intros H; try reflexivity; congruence.
Qed.

Lemma decorateAll_done_stable (ds : list Metrics.Decoration) :
  forall (o : Opts) (d : Metrics.Decoration),
    decorate o d = o -> decorate (decorateAll ds o) d = decorateAll ds o.
Proof.
  induction ds as [|x ds IH]; intros o d H; simpl.
  - exact H.
  - apply IH. apply decorate_done_stable. exact H.
Qed.

Lemma decorateAll_done (ds : list Metrics.Decoration) :
  forall (o : Opts) (d : Metrics.Decoration),
    In d ds -> decorate (decorateAll ds o) d = decorateAll ds o.
Proof.
  induction ds as [|x ds IH]; intros o d Hin; simpl.
  - destruct Hin.
  - destruct Hin as [<-|Hin].
    + apply decorateAll_done_stable. apply decorate_once.
    + apply IH. exact Hin.
Qed.

Lemma decorateAll_noop (ds : list Metrics.Decoration) :
  forall o : Opts,
    (forall d, In d ds -> decorate o d = o) -> decorateAll ds o = o.
Proof.
  induction ds as [|x ds IH]; intros o H; simpl.
  - reflexivity.
  - rewrite (H x (or_introl eq_refl)). apply IH.
    intros d Hd. apply H. right. exact Hd.
Qed.

(** X19. Each decoration of the help text is applied once only: running any
    sequence of [markDeprecated] and [annotateStabilityLevel] calls a second
    time changes nothing. *)
Theorem decorations_apply_once (ds : list Metrics.Decoration)
        (o : Metrics.CounterOpts Version) :
  Metrics.decorateAll Version Version_String ds
    (Metrics.decorateAll Version Version_String ds o)
  = Metrics.decorateAll Version Version_String ds o.
Proof.
  unfold Metrics.decorateAll.
  apply (decorateAll_noop ds). intros d Hd.
  apply (decorateAll_done ds o d Hd).
Qed.

Lemma decorate_frame (o : Opts) (d : Metrics.Decoration) :
  Metrics.Namespace (decorate o d) = Metrics.Namespace o
  /\ Metrics.Subsystem (decorate o d) = Metrics.Subsystem o
  /\ Metrics.Name (decorate o d) = Metrics.Name o
  /\ Metrics.ConstLabels (decorate o d) = Metrics.ConstLabels o
  /\ Metrics.DeprecatedVersion (decorate o d) = Metrics.DeprecatedVersion o
  /\ Metrics.optsStabilityLevel (decorate o d) = Metrics.optsStabilityLevel o
  /\ exists prefix, Metrics.Help (decorate o d) = prefix ++ Metrics.Help o.
Proof.
  destruct o as [ns ss n h cl dv [|] [|] sl], d; run_decorate;
    repeat split;
    first
      [ exists ""; reflexivity
      | exists ("(Deprecated since "
                  ++ Metrics.fmt_v_version Version Version_String dv ++ ") ");
        simpl; rewrite ?string_append_assoc; reflexivity
      | exists ("[" ++ sl ++ "] ");
        simpl; rewrite ?string_append_assoc; reflexivity ].
Qed.

(** X20. The decorations write the help text only, and only by prepending:
    after any sequence of calls the namespace, subsystem, name, labels,
    deprecated version and stability level are as before, the help text ends
    with the old help text, and the Prometheus options made from the result
    differ from those made before in the help text alone. *)
Theorem decorations_prepend_to_help_only (ds : list Metrics.Decoration)
        (o : Metrics.CounterOpts Version) :
  let o' := Metrics.decorateAll Version Version_String ds o in
  Metrics.DeprecatedVersion o' = Metrics.DeprecatedVersion o
  /\ Metrics.optsStabilityLevel o' = Metrics.optsStabilityLevel o
  /\ (exists prefix, Metrics.Help o' = prefix ++ Metrics.Help o)
  /\ Metrics.toPromCounterOpts o'
     = Metrics.mkPromCounterOpts
         (Metrics.promNamespace (Metrics.toPromCounterOpts o))
         (Metrics.promSubsystem (Metrics.toPromCounterOpts o))
         (Metrics.promName (Metrics.toPromCounterOpts o))
         (Metrics.Help o')
         (Metrics.promConstLabels (Metrics.toPromCounterOpts o)).
Proof.
  unfold Metrics.decorateAll.
  revert o. induction ds as [|d ds IH]; intros o; simpl.
  - repeat split. exists "". reflexivity.
  - specialize (IH (decorate o d)).
    destruct (decorate_frame o d)
      as (Hns & Hss & Hn & Hcl & Hdv & Hsl & (pre & Hh)).
    simpl in IH.
    destruct IH as (IHdv & IHsl & (pre' & IHh) & IHprom).
    split; [congruence|]. split; [congruence|]. split.
    + exists (pre' ++ pre). rewrite IHh, Hh, string_append_assoc.
      reflexivity.
    + rewrite IHprom. unfold Metrics.toPromCounterOpts. simpl.
      rewrite Hns, Hss, Hn, Hcl. reflexivity.
Qed.

Lemma helpState_step (o o' : Opts) (d : Metrics.Decoration) :
  Metrics.helpState Version Version_String o o' ->
  Metrics.helpState Version Version_String o (decorate o' d).
Proof.
  unfold Metrics.helpState.
  destruct o' as [ns ss n h cl dv [|] [|] sl], d; run_decorate;
    intros (Hdv & Hsl & Hhelp); subst;
    (split; [reflexivity|]); (split; [reflexivity|]);
    auto; unfold Metrics.deprecatedHelp, Metrics.annotatedHelp;
    try (left; reflexivity); try (right; reflexivity); try reflexivity.
Qed.

Lemma decorate_flags (o : Opts) (d : Metrics.Decoration) :
  (Metrics.deprecateOnce (decorate o d) = true
   <-> Metrics.deprecateOnce o = true \/ d = Metrics.Deprecate)
  /\ (Metrics.annotateOnce (decorate o d) = true
      <-> Metrics.annotateOnce o = true \/ d = Metrics.Annotate).
Proof.
  destruct o as [ns ss n h cl dv [|] [|] sl], d; run_decorate;
    split; split; auto; intros [H|H]; auto; discriminate.
Qed.

Lemma helpState_all (ds : list Metrics.Decoration) :
  forall o o' : Opts,
    Metrics.helpState Version Version_String o o' ->
    Metrics.helpState Version Version_String o (decorateAll ds o')
    /\ (Metrics.deprecateOnce (decorateAll ds o') = true
        <-> Metrics.deprecateOnce o' = true \/ In Metrics.Deprecate ds)
    /\ (Metrics.annotateOnce (decorateAll ds o') = true
        <-> Metrics.annotateOnce o' = true \/ In Metrics.Annotate ds).
Proof.
  induction ds as [|d ds IH]; intros o o' Hstate; simpl.
  - split; [exact Hstate|]. split; split; auto; intros [H|[]]; exact H.
  - destruct (IH o (decorate o' d) (helpState_step o o' d Hstate))
      as (Hs & Hdep & Hann).
    destruct (decorate_flags o' d) as [Hfd Hfa].
    split; [exact Hs|]. split.
    + rewrite Hdep, Hfd. intuition congruence.
    + rewrite Hann, Hfa. intuition congruence.
Qed.

(** X21. Starting from options on which neither decoration has run, after any
    sequence of calls the help text carries the deprecation notice exactly
    when [markDeprecated] was called, the stability annotation exactly when
    [annotateStabilityLevel] was called, each of them once, in front of the
    original help text. *)
Theorem help_carries_each_decoration_once (ds : list Metrics.Decoration)
        (o : Metrics.CounterOpts Version) :
  Metrics.deprecateOnce o = false -> Metrics.annotateOnce o = false ->
  let o' := Metrics.decorateAll Version Version_String ds o in
  Metrics.helpState Version Version_String o o'
  /\ (Metrics.deprecateOnce o' = true <-> In Metrics.Deprecate ds)
  /\ (Metrics.annotateOnce o' = true <-> In Metrics.Annotate ds).
Proof.
  intros Hd Ha o'.
  assert (Hstart : Metrics.helpState Version Version_String o o).
  { unfold Metrics.helpState. rewrite Hd, Ha. repeat split. }
  destruct (helpState_all ds o o Hstart) as (Hs & Hdep & Hann).
  split; [exact Hs|]. subst o'. unfold Metrics.decorateAll.
  rewrite Hd in Hdep. rewrite Ha in Hann.
  split; [rewrite Hdep | rewrite Hann]; intuition discriminate.
Qed.

End MetricsFacts.

(** ** The further properties on concrete requests *)

Lemma no_default_selected_iff_none_listed_witness :
  getDefaultPriorityClass (snapshotPlugin noDefaultIndex) = Ok None.
Proof.
  apply (proj2 (no_default_selected_iff_none_listed
                  (snapshotPlugin noDefaultIndex) noDefaultIndex eq_refl)).
  intros q [<-|[<-|[]]]; reflexivity.
Defined.

(** Of two defaults of value 7 the one listed first is returned. *)
Lemma selected_default_is_first_lowest_witness :
  exists d l1 l2,
    getDefaultPriorityClass (snapshotPlugin tiedIndex) = Ok (Some d)
    /\ tiedIndex = (l1 ++ d :: l2)%list /\ GlobalDefault d = true
    /\ (forall q, In q l1 -> GlobalDefault q = true -> Value d < Value q)
    /\ (forall q, In q l2 -> GlobalDefault q = true -> Value d <= Value q).
Proof.
  apply (selected_default_is_first_lowest
           (snapshotPlugin tiedIndex) tiedIndex
           (mkPriorityClass "second" 7 true) eq_refl).
  - simpl; auto.
  - reflexivity.
Defined.

(** The raced index and the same index listed backwards. *)
Lemma default_value_independent_of_order_witness :
  exists name name' v,
    getDefaultPriority upstream (snapshotPlugin racedIndex) = Ok (name, v)
    /\ getDefaultPriority upstream (snapshotPlugin (rev racedIndex))
       = Ok (name', v).
Proof.
  apply (default_value_independent_of_order
           upstream (snapshotPlugin racedIndex)
           (snapshotPlugin (rev racedIndex)) racedIndex (rev racedIndex)
           eq_refl eq_refl).
  apply Permutation_rev.
Defined.

Lemma validate_list_failure_is_transient_witness :
  validatePriorityClass brokenPlugin (classRequest Create bronze)
  = Some (errorString
            "failed to get default priority class: index unavailable").
Proof.
  apply (proj1 (validate_list_failure_is_transient
                  brokenPlugin (classRequest Create bronze) bronze
                  (errorString "index unavailable")
                  eq_refl eq_refl eq_refl)).
Defined.

Lemma admitPod_malformed_input_witness :
  admitPod upstream priorityOnly (snapshotPlugin noDefaultIndex)
           (podRequest Create "default" (PriorityClassObject gold) NilObject)
  = (PriorityClassObject gold, Some (NewBadRequest msgNotPod))
  /\ admitPod upstream priorityOnly (snapshotPlugin noDefaultIndex)
              (podRequest Update "default" (PodObject (plainPod "" None))
                          NilObject)
     = (PodObject (plainPod "" None), Some (NewBadRequest msgNotPod)).
Proof.
  split.
  - refine (proj1 (admitPod_malformed_input
                     upstream priorityOnly (snapshotPlugin noDefaultIndex)
                     (podRequest Create "default" (PriorityClassObject gold)
                                 NilObject) _)).
    left. intros pod H. discriminate H.
  - refine (proj1 (admitPod_malformed_input
                     upstream priorityOnly (snapshotPlugin noDefaultIndex)
                     (podRequest Update "default"
                                 (PodObject (plainPod "" None)) NilObject)
                     _)).
    right. split; [reflexivity|]. intros old H. discriminate H.
Defined.

Lemma validate_malformed_input_witness :
  exists e,
    validatePriorityClass brokenPlugin
                          (createPod "default" (plainPod "" None)) = Some e
    /\ kindOf e = Some MalformedInput
    /\ forall p', validatePriorityClass
                    p' (createPod "default" (plainPod "" None)) = Some e.
Proof.
  apply (validate_malformed_input
           brokenPlugin (createPod "default" (plainPod "" None))).
  intros pc H. discriminate H.
Defined.

(** An Update of the status subresource is not touched, although the old pod
    has a priority and the new one has none. *)
Lemma Admit_passes_through_witness :
  Admit upstream priorityOnly (snapshotPlugin noDefaultIndex) statusRequest
  = (PodObject (plainPod "" None), None).
Proof.
  apply (Admit_passes_through
           upstream priorityOnly (snapshotPlugin noDefaultIndex)
           statusRequest).
  left. discriminate.
Defined.

(** Deleting a default class is not checked, even with an unreadable
    index. *)
Lemma Validate_passes_through_witness :
  Validate upstream allEnabled brokenPlugin (classRequest Delete gold) = None.
Proof.
  apply (Validate_passes_through
           upstream allEnabled brokenPlugin (classRequest Delete gold)).
  right. right. left. reflexivity.
Defined.

Lemma passes_are_disjoint_witness :
  Validate upstream allEnabled brokenPlugin
           (createPod "default" (plainPod "missing" (Some 3))) = None
  /\ Admit upstream allEnabled brokenPlugin (classRequest Create gold)
     = (PriorityClassObject gold, None).
Proof.
  split.
  - apply (proj1 (passes_are_disjoint
                    upstream allEnabled brokenPlugin
                    (createPod "default" (plainPod "missing" (Some 3))))).
    reflexivity.
  - apply (proj2 (passes_are_disjoint
                    upstream allEnabled brokenPlugin
                    (classRequest Create gold))).
    reflexivity.
Defined.

Lemma named_class_gives_its_value_witness :
  admitPod upstream priorityOnly (snapshotPlugin noDefaultIndex)
           (createPod "default" (plainPod "plain" None))
  = (PodObject (plainPod "plain" (Some 100)), None).
Proof.
  apply (named_class_gives_its_value
           upstream priorityOnly (snapshotPlugin noDefaultIndex)
           (createPod "default" (plainPod "plain" None))
           (plainPod "plain" None) (mkPriorityClass "plain" 100 false)
           eq_refl eq_refl).
  - discriminate.
  - reflexivity.
  - reflexivity.
  - left. reflexivity.
Defined.

Lemma reserved_class_only_in_system_namespace_witness :
  (exists e,
      kindOf e = Some PolicyViolation
      /\ forall fg' p',
          admitPod upstream fg' p'
                   (createPod "default"
                              (plainPod "system-cluster-critical" None))
          = (PodObject (plainPod "system-cluster-critical" None), Some e))
  /\ admitPod upstream priorityOnly (snapshotPlugin noDefaultIndex)
              (createPod "kube-system"
                         (plainPod "system-cluster-critical" None))
     = (PodObject (plainPod "system-cluster-critical" (Some 2000000000)),
        None).
Proof.
  split.
  - destruct (reserved_class_only_in_system_namespace
                upstream priorityOnly (snapshotPlugin noDefaultIndex)
                (createPod "default"
                           (plainPod "system-cluster-critical" None))
                (plainPod "system-cluster-critical" None)
                eq_refl eq_refl) as [Houtside _].
    + discriminate.
    + simpl. auto.
    + apply Houtside. discriminate.
  - destruct (reserved_class_only_in_system_namespace
                upstream priorityOnly (snapshotPlugin noDefaultIndex)
                (createPod "kube-system"
                           (plainPod "system-cluster-critical" None))
                (plainPod "system-cluster-critical" None)
                eq_refl eq_refl) as [_ Hinside].
    + discriminate.
    + simpl. auto.
    + apply (Hinside eq_refl
               (mkPriorityClass "system-cluster-critical" 2000000000 false)
               eq_refl eq_refl).
Defined.

Lemma legacy_inference_names_the_class_witness :
  admitPod upstream allEnabled (snapshotPlugin noDefaultIndex)
           (createPod "kube-system" criticalPod)
  = admitPod upstream allEnabled (snapshotPlugin noDefaultIndex)
             (createPod "kube-system"
                (setPriorityClassName criticalPod "system-cluster-critical")).
Proof.
  apply (legacy_inference_names_the_class
           upstream allEnabled (snapshotPlugin noDefaultIndex)
           (createPod "kube-system" criticalPod) criticalPod
           eq_refl eq_refl eq_refl eq_refl).
Defined.

(** A refused Create that had already received the default's class name:
    the priority and the other fields are as they came. *)
Lemma create_writes_class_and_priority_only_witness :
  exists pod',
    fst (admitPod upstream priorityOnly (snapshotPlugin oneDefaultIndex)
                  (createPod "default" (plainPod "" (Some 3))))
    = PodObject pod'
    /\ podName pod' = "web-0" /\ podNamespace pod' = "default"
    /\ Annotations pod' = [] /\ NodeName (Spec pod') = ""
    /\ Priority (Spec pod') = Some 3.
Proof.
  destruct (create_writes_class_and_priority_only
              upstream priorityOnly (snapshotPlugin oneDefaultIndex)
              (createPod "default" (plainPod "" (Some 3)))
              (plainPod "" (Some 3))
              (fst (admitPod upstream priorityOnly
                             (snapshotPlugin oneDefaultIndex)
                             (createPod "default" (plainPod "" (Some 3)))))
              (snd (admitPod upstream priorityOnly
                             (snapshotPlugin oneDefaultIndex)
                             (createPod "default" (plainPod "" (Some 3)))))
              eq_refl eq_refl eq_refl)
    as (pod' & Hobj & Hn & Hns & Hann & Hnode & _ & Hprio & _).
  exists pod'. split; [exact Hobj|]. repeat split; try assumption.
  apply Hprio. reflexivity.
Defined.

Lemma admitted_priority_is_accounted_for_witness :
  classJustifies upstream (snapshotPlugin noDefaultIndex)
                 (createPod "default" (plainPod "plain" None))
                 (plainPod "plain" (Some 100))
  /\ (classJustifies upstream (snapshotPlugin racedIndex)
                     (createPod "default" (plainPod "" None))
                     (plainPod "bronze" (Some 5))
      \/ (PriorityClassName (Spec (plainPod "" None)) = ""
          /\ defaultJustifies upstream (snapshotPlugin racedIndex)
                              (plainPod "bronze" (Some 5)))).
Proof.
  split.
  - apply (proj2 (admitted_priority_is_accounted_for
                    upstream priorityOnly (snapshotPlugin noDefaultIndex)
                    (createPod "default" (plainPod "plain" None))
                    (plainPod "plain" None) (plainPod "plain" (Some 100))
                    eq_refl eq_refl eq_refl)).
    discriminate.
  - apply (proj1 (admitted_priority_is_accounted_for
                    upstream priorityOnly (snapshotPlugin racedIndex)
                    (createPod "default" (plainPod "" None))
                    (plainPod "" None) (plainPod "bronze" (Some 5))
                    eq_refl eq_refl eq_refl)).
Defined.

(** Sent again, the admitted pod is admitted as it is: for a named class, and
    for the fallback. *)
Lemma create_admission_can_be_repeated_witness :
  admitPod upstream priorityOnly (snapshotPlugin noDefaultIndex)
           (createPod "default" (plainPod "plain" (Some 100)))
  = (PodObject (plainPod "plain" (Some 100)), None)
  /\ admitPod upstream priorityOnly (snapshotPlugin noDefaultIndex)
              (createPod "default" (plainPod "" (Some 0)))
     = (PodObject (plainPod "" (Some 0)), None).
Proof.
  split.
  - apply (create_admission_can_be_repeated
             upstream priorityOnly (snapshotPlugin noDefaultIndex)
             (createPod "default" (plainPod "plain" None))
             (plainPod "plain" None) (plainPod "plain" (Some 100))
             eq_refl eq_refl eq_refl).
    left. discriminate.
  - apply (create_admission_can_be_repeated
             upstream priorityOnly (snapshotPlugin noDefaultIndex)
             (createPod "default" (plainPod "" None))
             (plainPod "" None) (plainPod "" (Some 0))
             eq_refl eq_refl eq_refl).
    right. left. reflexivity.
Defined.

Lemma update_accepted_when_sole_default_witness :
  validatePriorityClass (snapshotPlugin oneDefaultIndex)
                        (classRequest Update gold) = None.
Proof.
  apply (update_accepted_when_sole_default
           (snapshotPlugin oneDefaultIndex) (classRequest Update gold)
           gold oneDefaultIndex eq_refl eq_refl eq_refl eq_refl).
  intros q [<-|[<-|[]]]; [discriminate | reflexivity].
Defined.

Lemma update_rejected_when_all_defaults_differ_witness :
  exists e,
    validatePriorityClass (snapshotPlugin oneDefaultIndex)
                          (classRequest Update bronze) = Some e
    /\ kindOf e = Some PolicyViolation.
Proof.
  apply (update_rejected_when_all_defaults_differ
           (snapshotPlugin oneDefaultIndex) (classRequest Update bronze)
           bronze gold oneDefaultIndex eq_refl eq_refl eq_refl eq_refl).
  - simpl; auto.
  - reflexivity.
  - intros q [<-|[<-|[]]]; discriminate.
Defined.

(** Deprecate, annotate, deprecate again: the help text has the annotation in
    front of the notice, each once. *)
Lemma help_carries_each_decoration_once_witness :
  Metrics.Help
    (Metrics.decorateAll string (fun v => v)
       [Metrics.Deprecate; Metrics.Annotate; Metrics.Deprecate]
       Metrics.sampleOpts)
  = "[ALPHA] (Deprecated since 1.14.0) Number of rejected requests".
Proof.
  destruct (help_carries_each_decoration_once
              string (fun v => v)
              [Metrics.Deprecate; Metrics.Annotate; Metrics.Deprecate]
              Metrics.sampleOpts eq_refl eq_refl)
    as ((_ & _ & Hhelp) & _ & _).
  simpl in Hhelp. destruct Hhelp as [Hhelp|Hhelp].
  - exact Hhelp.
  - discriminate Hhelp.
Defined.
